(** * StarterClient: request building, envelope unwrapping and the query hooks

    A shallow embedding of the TypeScript sources

      - [utils/starter-helpers.ts]  (headers, [buildUrl], [handleApiError])
      - [types.ts]                  ([QUERY_KEYS])
      - [network/StarterClient.ts]  (the six client methods)
      - [hooks/useHistories.ts], [hooks/useHistoriesTotal.ts],
        [hooks/useHistoryMutations.ts]

    Strings are [string]; a [Record<string, string>] of headers is a
    [gmap string string]; a query key (a tuple of strings) is a [list string];
    a value of type [X | null] or an optional field is an [option].  An
    [async] function is a state-passing computation over the [World] that the
    injected collaborators own (the transport's call log, the query engine's
    cache, its log of invalidations and the clock) and settles as [Fulfilled]
    or [Rejected]. *)

From Stdlib Require Import String Ascii List ZArith Lia Bool.
From stdpp Require Import base option list gmap strings.

Local Open Scope Z_scope.
Local Open Scope stdpp_scope.

(** ** JavaScript values the sources rely on *)

Module Js.

(** Truthiness of a [string | null | undefined]: [null], [undefined] and the
    empty string are falsy, every other string is truthy.  This is what
    [!!x], [if (x)] and the left operand of [||] test. *)
Definition truthy (x : option string) : bool :=
  match x with
  | None => false
  | Some EmptyString => false
  | Some (String _ _) => true
  end.

(** [x || fallback] on an optional string. *)
Definition or_else (x : option string) (fallback : string) : string :=
  match x with
  | Some s => if truthy x then s else fallback
  | None => fallback
  end.

(** [x ?? fallback]. *)
Definition nullish {A} (x : option A) (fallback : A) : A :=
  match x with
  | Some a => a
  | None => fallback
  end.

(** [x ?? y] when [y] may be nullish as well. *)
Definition nullish_opt {A} (x y : option A) : option A :=
  match x with
  | Some a => Some a
  | None => y
  end.

(** A template literal prints [null] as the four letters "null".  The
    non-null assertion [x!] is erased at run time, and every use the sources
    make of an asserted value is inside a template literal, so the embedding
    applies this coercion where the assertion stands. *)
Definition template (x : option string) : string :=
  match x with
  | Some s => s
  | None => "null"
  end.

(** Anything a promise can be rejected with: an [Error] object, of which
    only the message is read, or some other value. *)
Inductive Thrown : Type :=
| ErrorObject (message : string)
| NonError (description : string).

(** [e instanceof Error ? e.message : null] on a possibly absent [e]. *)
Definition message_of (e : option Thrown) : option string :=
  match e with
  | Some (ErrorObject m) => Some m
  | Some (NonError _) => None
  | None => None
  end.

(** [s.replace(/\/$/, '')]: without the [m] flag, [$] matches at the end of
    the input only, so one final slash is removed when there is one and
    nothing else changes. *)
Fixpoint replace_trailing_slash (s : string) : string :=
  match s with
  | EmptyString => EmptyString
  | String c rest =>
      match rest with
      | EmptyString => if Ascii.eqb c "/" then EmptyString else String c EmptyString
      | String _ _ => String c (replace_trailing_slash rest)
      end
  end.

(** [s.endsWith(suffix)] *)
Fixpoint endsWith (s suffix : string) : bool :=
  String.eqb s suffix
  || match s with
     | EmptyString => false
     | String _ rest => endsWith rest suffix
     end.

End Js.

(** ** utils/starter-helpers.ts *)

Definition createAuthHeaders (token : string) : gmap string string :=
  <["Content-Type" := "application/json"]>
    (<["Accept" := "application/json"]>
       (<["Authorization" := "Bearer " +:+ token]> ∅)).

Definition createHeaders : gmap string string :=
  <["Content-Type" := "application/json"]>
    (<["Accept" := "application/json"]> ∅).

Definition buildUrl (baseUrl path : string) : string :=
  let cleanBase := Js.replace_trailing_slash baseUrl in
  cleanBase +:+ path.

(** The argument of [handleApiError] as far as the function reads it,
    [response?.data?.error] and [response?.data?.message], with the types of
    the cast the function starts with: each is a string or missing.  (The
    parameter itself is [unknown]; fields of other types are outside this
    record.) *)
Record ErrorPayload : Type := {
  ep_error : option string;
  ep_message : option string
}.

Definition handleApiError (response : option (option ErrorPayload))
    (operation : string) : Js.Thrown :=
  let resp_data := match response with Some d => d | None => None end in
  let errorMessage :=
    Js.or_else (resp_data ≫= ep_error)
      (Js.or_else (resp_data ≫= ep_message) "Unknown error") in
  Js.ErrorObject ("Failed to " +:+ operation +:+ ": " +:+ errorMessage).

(** ** types.ts *)

Module QUERY_KEYS.
Definition histories (userId : string) : list string :=
  ["starter"; "histories"; userId].
Definition historiesTotal : list string :=
  ["starter"; "histories"; "total"].
Definition user (userId : string) : list string :=
  ["starter"; "user"; userId].
End QUERY_KEYS.

(** Modelled from the spec: [DEFAULT_STALE_TIME] and [DEFAULT_GC_TIME], which
    the documented variant of [useHistories] imports from [types.ts] and whose
    declarations are not in the file at hand; the spec gives the staleness
    window as 5 minutes and the garbage-collection window as 30 minutes, the
    values the other hooks spell out in milliseconds. *)
Definition DEFAULT_STALE_TIME : Z := 5 * 60 * 1000.
Definition DEFAULT_GC_TIME : Z := 30 * 60 * 1000.

(** ** Wire types

    [BaseResponse<T>] is the envelope of every response.  The package that
    declares it is a dependency; the shape is the one the sources read:
    [response.success], [response.data], [response.error]. *)

Record BaseResponse (T : Type) : Type := {
  success : bool;
  data : option T;
  error : option string
}.
Arguments success {T} _.
Arguments data {T} _.
Arguments error {T} _.

(** What a transport call resolves with: an object whose [data] field the
    client casts to the envelope type of the method, without looking at it. *)
Record NetworkResponse (T : Type) : Type := {
  response_data : BaseResponse T
}.
Arguments response_data {T} _.

Inductive Verb : Type := GET | POST | PUT | DELETE.

Record RequestOptions : Type := {
  headers : gmap string string;
  body : option string
}.

Record Request : Type := {
  verb : Verb;
  url : string;
  options : RequestOptions
}.

(** How a promise settles. *)
Inductive Settled (A : Type) : Type :=
| Fulfilled (a : A)
| Rejected (e : Js.Thrown).
Arguments Fulfilled {A} _.
Arguments Rejected {A} _.

(** The injected [NetworkClient].  A transport is free to answer a call by
    looking at everything it was asked before, so each verb is a function of
    the calls made so far, the URL and the options. *)
Record NetworkClient (T : Type) : Type := {
  nc_get : list Request -> string -> RequestOptions -> Settled (NetworkResponse T);
  nc_post : list Request -> string -> RequestOptions -> Settled (NetworkResponse T);
  nc_put : list Request -> string -> RequestOptions -> Settled (NetworkResponse T);
  nc_delete : list Request -> string -> RequestOptions -> Settled (NetworkResponse T)
}.
Arguments nc_get {T} _ _ _ _.
Arguments nc_post {T} _ _ _ _.
Arguments nc_put {T} _ _ _ _.
Arguments nc_delete {T} _ _ _ _.

(** [JSON.stringify] on the request shapes, a builtin of the host. *)
Class Stringify (A : Type) : Type := JSON_stringify : A -> string.

(** ** The collaborators' state and asynchronous computations *)

(** An entry of the query engine's cache: the data of the last successful
    fetch, the time it arrived (milliseconds), how many invalidations the
    engine had been asked for by then, and the garbage-collection window the
    engine was given for the entry. *)
Record CacheEntry (T : Type) : Type := {
  entry_data : T;
  entry_updatedAt : Z;
  entry_invalidations : nat;
  entry_gcTime : Z
}.
Arguments entry_data {T} _.
Arguments entry_updatedAt {T} _.
Arguments entry_invalidations {T} _.
Arguments entry_gcTime {T} _.

Record World (T : Type) : Type := {
  calls : list Request;                       (* transport calls, oldest first *)
  invalidated : list (list string);           (* invalidateQueries calls, oldest first *)
  cache : gmap (list string) (CacheEntry T);  (* the engine's cache, by query key *)
  now : Z                                     (* the clock, in milliseconds *)
}.
Arguments calls {T} _.
Arguments invalidated {T} _.
Arguments cache {T} _.
Arguments now {T} _.

Definition Async (T A : Type) : Type := World T -> World T * Settled A.

Section Engine.
Context {T : Type}.

Definition ret {A} (a : A) : Async T A := fun w => (w, Fulfilled a).

Definition throw {A} (e : Js.Thrown) : Async T A := fun w => (w, Rejected e).

(** [await]: a rejection of the awaited promise rejects the whole
    [async] function, unless the function catches it. *)
Definition bind {A B} (m : Async T A) (k : A -> Async T B) : Async T B :=
  fun w =>
    match m w with
    | (w', Fulfilled a) => k a w'
    | (w', Rejected e) => (w', Rejected e)
    end.

(** The answer of the transport to a call of one of its verbs. *)
Definition dispatch (nc : NetworkClient T) (v : Verb)
    : list Request -> string -> RequestOptions -> Settled (NetworkResponse T) :=
  match v with
  | GET => nc_get nc
  | POST => nc_post nc
  | PUT => nc_put nc
  | DELETE => nc_delete nc
  end.

(** The world after the request [r] has gone to the transport. *)
Definition logged (r : Request) (w : World T) : World T :=
  {| calls := calls w ++ [r];
     invalidated := invalidated w;
     cache := cache w;
     now := now w |}.

(** One call of a verb of the transport: the call is made, and the promise
    settles as the transport answers. *)
Definition send (nc : NetworkClient T) (v : Verb) (u : string)
    (o : RequestOptions) : Async T (NetworkResponse T) :=
  fun w =>
    (logged {| verb := v; url := u; options := o |} w,
     dispatch nc v (calls w) u o).

(** *** The query engine

    The hooks hand their work to a third-party engine.  Of its behaviour the
    embedding keeps what the hooks' results depend on:

    - a disabled query does not run its query function;
    - an enabled one does not run it either while the cache holds fresh data
      for the key: data younger than the staleness window of the options and
      not invalidated since it arrived;
    - otherwise an enabled query runs it, and runs it again after a
      rejection as often as the engine is configured to retry;
    - the data of a fulfilled fetch is stored under the query key with the
      time of the clock and the garbage-collection window of the options,
      and the result shows what the cache holds for the key;
    - a rejection leaves the cache as it is and becomes the result's error;
    - a mutation runs its function, calls [onSuccess] with the result when
      the function fulfils and keeps the rejection as its error otherwise;
    - [invalidateQueries] is recorded in the order of the calls.

    The state reported is the one after the fetch has settled; the clock is
    read when the hook runs, and a fetch takes no time.  What the
    hooks do not set is at the engine's default (a mounted query refetches
    stale data); evicting entries that are no longer used is the engine's
    own business and not part of the embedding. *)

Record QueryClient : Type := {
  query_retry : nat;
  mutation_retry : nat
}.

Fixpoint attempt {A} (retries : nat) (f : Async T A) : Async T A :=
  fun w =>
    match f w with
    | (w', Fulfilled a) => (w', Fulfilled a)
    | (w', Rejected e) =>
        match retries with
        | O => (w', Rejected e)
        | S n => attempt n f w'
        end
    end.

Definition invalidateQueries (queryKey : list string) (w : World T) : World T :=
  {| calls := calls w;
     invalidated := invalidated w ++ [queryKey];
     cache := cache w;
     now := now w |}.

(** The data of a fulfilled fetch replaces the entry of the key: it is
    stamped with the clock, and the invalidations asked for so far no longer
    count against it. *)
Definition store (queryKey : list string) (d : T) (gc : Z)
    (w : World T) : World T :=
  {| calls := calls w;
     invalidated := invalidated w;
     cache := <[queryKey := {| entry_data := d;
                                entry_updatedAt := now w;
                                entry_invalidations := length (invalidated w);
                                entry_gcTime := gc |}]> (cache w);
     now := now w |}.

Definition cached (queryKey : list string) (w : World T) : option T :=
  entry_data <$> cache w !! queryKey.

(** An entry is invalidated when, since its data arrived, the engine was
    asked to invalidate a key that is a prefix of the entry's key (the
    engine matches keys partially). *)
Definition is_invalidated (queryKey : list string) (entry : CacheEntry T)
    (w : World T) : bool :=
  existsb (fun filter => bool_decide (filter `prefix_of` queryKey))
    (drop (entry_invalidations entry) (invalidated w)).

(** What the cache holds for a key is fresh for an observer with the
    staleness window [stale] when there is an entry, it is not invalidated,
    and the clock has not reached the time the data arrived plus the
    window. *)
Definition is_fresh (queryKey : list string) (stale : Z) (w : World T) : bool :=
  match cache w !! queryKey with
  | Some entry =>
      negb (is_invalidated queryKey entry w)
      && (now w <? entry_updatedAt entry + stale)
  | None => false
  end.

(** The same world [dt] milliseconds later. *)
Definition later (dt : Z) (w : World T) : World T :=
  {| calls := calls w;
     invalidated := invalidated w;
     cache := cache w;
     now := now w + dt |}.

Record QueryOptions : Type := {
  queryKey : list string;
  queryFn : Async T T;
  enabled : bool;
  staleTime : Z;
  gcTime : Z
}.

Record QueryResult : Type := {
  query_data : option T;
  query_isLoading : bool;
  query_error : option Js.Thrown
}.

Definition useQuery (qc : QueryClient) (o : QueryOptions)
    (w : World T) : World T * QueryResult :=
  if enabled o && negb (is_fresh (queryKey o) (staleTime o) w) then
    match attempt (query_retry qc) (queryFn o) w with
    | (w1, Fulfilled d) =>
        let w2 := store (queryKey o) d (gcTime o) w1 in
        (w2, {| query_data := cached (queryKey o) w2;
                query_isLoading := false;
                query_error := None |})
    | (w1, Rejected e) =>
        (w1, {| query_data := cached (queryKey o) w1;
                query_isLoading := false;
                query_error := Some e |})
    end
  else
    (w, {| query_data := cached (queryKey o) w;
           query_isLoading := false;
           query_error := None |}).

Record MutationOptions (V R : Type) : Type := {
  mutationFn : V -> Async T R;
  onSuccess : R -> World T -> World T
}.
Arguments mutationFn {V R} _.
Arguments onSuccess {V R} _.

(** What a mutation observer exposes of its state. *)
Record MutationState : Type := {
  mutation_error : option Js.Thrown;
  isPending : bool
}.

(** What a mutation exposes before it has run, after it has fulfilled and
    after [reset]. *)
Definition without_error : MutationState :=
  {| mutation_error := None; isPending := false |}.

Definition mutateAsync {V R} (qc : QueryClient) (o : MutationOptions V R)
    (variables : V) (w : World T) : World T * MutationState * Settled R :=
  match attempt (mutation_retry qc) (mutationFn o variables) w with
  | (w1, Fulfilled r) => (onSuccess o r w1, without_error, Fulfilled r)
  | (w1, Rejected e) =>
      (w1, {| mutation_error := Some e; isPending := false |}, Rejected e)
  end.

End Engine.

Arguments mutationFn {T V R} _.
Arguments onSuccess {T V R} _.

Declare Scope async_scope.
Delimit Scope async_scope with async.
Notation "x <- 'await' m ;; k" := (bind m (fun x => k))
  (at level 100, m at next level, right associativity) : async_scope.

(** ** network/StarterClient.ts *)

Module StarterClient.
Section Methods.
Context {T : Type}.
Local Open Scope async_scope.

Record t : Type := new {
  baseUrl : string;
  networkClient : NetworkClient T
}.

(* --- User --- *)

Definition getUser (this : t) (userId token : string)
    : Async T (BaseResponse T) :=
  let url := buildUrl (baseUrl this) ("/api/v1/users/" +:+ userId) in
  response <- await send (networkClient this) GET url
                {| headers := createAuthHeaders token; body := None |} ;;
  ret (response_data response).

(* --- Histories --- *)

Definition getHistories (this : t) (userId token : string)
    : Async T (BaseResponse T) :=
  let url :=
    buildUrl (baseUrl this) ("/api/v1/users/" +:+ userId +:+ "/histories") in
  response <- await send (networkClient this) GET url
                {| headers := createAuthHeaders token; body := None |} ;;
  ret (response_data response).

Definition createHistory {C} `{!Stringify C} (this : t) (userId : string)
    (data : C) (token : string) : Async T (BaseResponse T) :=
  let url :=
    buildUrl (baseUrl this) ("/api/v1/users/" +:+ userId +:+ "/histories") in
  response <- await send (networkClient this) POST url
                {| headers := createAuthHeaders token;
                   body := Some (JSON_stringify data) |} ;;
  ret (response_data response).

Definition updateHistory {U} `{!Stringify U} (this : t)
    (userId historyId : string) (data : U) (token : string)
    : Async T (BaseResponse T) :=
  let url :=
    buildUrl (baseUrl this)
      ("/api/v1/users/" +:+ userId +:+ "/histories/" +:+ historyId) in
  response <- await send (networkClient this) PUT url
                {| headers := createAuthHeaders token;
                   body := Some (JSON_stringify data) |} ;;
  ret (response_data response).

Definition deleteHistory (this : t) (userId historyId token : string)
    : Async T (BaseResponse T) :=
  let url :=
    buildUrl (baseUrl this)
      ("/api/v1/users/" +:+ userId +:+ "/histories/" +:+ historyId) in
  response <- await send (networkClient this) DELETE url
                {| headers := createAuthHeaders token; body := None |} ;;
  ret (response_data response).

(* --- Total (public) --- *)

Definition getHistoriesTotal (this : t) : Async T (BaseResponse T) :=
  let url := buildUrl (baseUrl this) "/api/v1/histories/total" in
  response <- await send (networkClient this) GET url
                {| headers := createHeaders; body := None |} ;;
  ret (response_data response).

End Methods.
Arguments t : clear implicits.
End StarterClient.

(** ** The hooks *)

(** [options?: { enabled?: boolean }] *)
Record HookOptions : Type := {
  option_enabled : option bool
}.

Module HistoryTotalResponse.
Record t : Type := { total : Z }.
End HistoryTotalResponse.

(** *** hooks/useHistories.ts

    The file is present in two states that differ in how the two windows are
    written: as literals (module [UseHistories]) and as the constants
    [DEFAULT_STALE_TIME] and [DEFAULT_GC_TIME] (module [UseHistoriesDefaults]).
    [refetch], which the hooks pass through from the engine, is not part of
    the results here. *)

Module UseHistories.
Section Hook.
Context {History : Type}.
Local Open Scope async_scope.

Definition EMPTY_HISTORIES : list History := [].

(** The [queryFn] of the hook.  [response.data] is an array when it is
    there, and an array is truthy; [!response.data] holds for a missing
    [data] only. *)
Definition historiesQueryFn (client : StarterClient.t (list History))
    (userId token : option string) : Async (list History) (list History) :=
  response <- await StarterClient.getHistories client
                (Js.template userId) (Js.template token) ;;
  match success response, data response with
  | true, Some histories => ret histories
  | _, _ =>
      throw (Js.ErrorObject
               (Js.or_else (error response) "Failed to fetch histories"))
  end.

Record UseHistoriesReturn : Type := {
  histories : list History;
  isLoading : bool;
  error : option string
}.

(** The object the hook passes to [useQuery]. *)
Definition queryOptions (networkClient : NetworkClient (list History))
    (baseUrl : string) (userId token : option string)
    (options : option HookOptions) : QueryOptions :=
  let enabled :=
    Js.nullish (options ≫= option_enabled) true
    && Js.truthy userId && Js.truthy token in
  let client := StarterClient.new baseUrl networkClient in
  {| queryKey := QUERY_KEYS.histories (Js.nullish userId EmptyString);
     queryFn := historiesQueryFn client userId token;
     enabled := enabled;
     staleTime := 5 * 60 * 1000;
     gcTime := 30 * 60 * 1000 |}.

Definition useHistories (qc : QueryClient)
    (networkClient : NetworkClient (list History)) (baseUrl : string)
    (userId token : option string) (options : option HookOptions)
    (w : World (list History)) : World (list History) * UseHistoriesReturn :=
  let '(w', q) :=
    useQuery qc (queryOptions networkClient baseUrl userId token options) w in
  (w', {| histories := Js.nullish (query_data q) EMPTY_HISTORIES;
          isLoading := query_isLoading q;
          error := Js.message_of (query_error q) |}).

End Hook.
Arguments UseHistoriesReturn : clear implicits.
End UseHistories.

Module UseHistoriesDefaults.
Section Hook.
Context {History : Type}.

Definition queryOptions (networkClient : NetworkClient (list History))
    (baseUrl : string) (userId token : option string)
    (options : option HookOptions) : QueryOptions :=
  let enabled :=
    Js.nullish (options ≫= option_enabled) true
    && Js.truthy userId && Js.truthy token in
  let client := StarterClient.new baseUrl networkClient in
  {| queryKey := QUERY_KEYS.histories (Js.nullish userId EmptyString);
     queryFn := UseHistories.historiesQueryFn client userId token;
     enabled := enabled;
     staleTime := DEFAULT_STALE_TIME;
     gcTime := DEFAULT_GC_TIME |}.

Definition useHistories (qc : QueryClient)
    (networkClient : NetworkClient (list History)) (baseUrl : string)
    (userId token : option string) (options : option HookOptions)
    (w : World (list History))
    : World (list History) * UseHistories.UseHistoriesReturn History :=
  let '(w', q) :=
    useQuery qc (queryOptions networkClient baseUrl userId token options) w in
  (w', {| UseHistories.histories :=
            Js.nullish (query_data q) UseHistories.EMPTY_HISTORIES;
          UseHistories.isLoading := query_isLoading q;
          UseHistories.error := Js.message_of (query_error q) |}).

End Hook.
End UseHistoriesDefaults.

(** *** hooks/useHistoriesTotal.ts *)

Module UseHistoriesTotal.
Section Hook.
Local Open Scope async_scope.

(** The [queryFn] of the hook.  [response.data] is an object when it is
    there, and an object is truthy. *)
Definition totalQueryFn (client : StarterClient.t HistoryTotalResponse.t)
    : Async HistoryTotalResponse.t HistoryTotalResponse.t :=
  response <- await StarterClient.getHistoriesTotal client ;;
  match success response, data response with
  | true, Some d => ret d
  | _, _ =>
      throw (Js.ErrorObject
               (Js.or_else (error response) "Failed to fetch total"))
  end.

Record UseHistoriesTotalReturn : Type := {
  total : Z;
  isLoading : bool;
  error : option string
}.

Definition queryOptions (networkClient : NetworkClient HistoryTotalResponse.t)
    (baseUrl : string) (options : option HookOptions) : QueryOptions :=
  let enabled := Js.nullish (options ≫= option_enabled) true in
  let client := StarterClient.new baseUrl networkClient in
  {| queryKey := QUERY_KEYS.historiesTotal;
     queryFn := totalQueryFn client;
     enabled := enabled;
     staleTime := 5 * 60 * 1000;
     gcTime := 30 * 60 * 1000 |}.

Definition useHistoriesTotal (qc : QueryClient)
    (networkClient : NetworkClient HistoryTotalResponse.t) (baseUrl : string)
    (options : option HookOptions) (w : World HistoryTotalResponse.t)
    : World HistoryTotalResponse.t * UseHistoriesTotalReturn :=
  let '(w', q) := useQuery qc (queryOptions networkClient baseUrl options) w in
  (w', {| total :=
            Js.nullish (HistoryTotalResponse.total <$> query_data q) 0;
          isLoading := query_isLoading q;
          error := Js.message_of (query_error q) |}).

End Hook.
End UseHistoriesTotal.

(** *** hooks/useHistoryMutations.ts

    The three mutations keep their state between renders: the hook is a
    function of that state, and the functions it returns take the world and
    the state of the mutations to the next ones. *)

Module UseHistoryMutations.
Section Hook.
Context {T C U : Type} `{!Stringify C} `{!Stringify U}.

Record Mutations : Type := {
  createMutation : MutationState;
  updateMutation : MutationState;
  deleteMutation : MutationState
}.

Definition initial : Mutations :=
  {| createMutation := without_error;
     updateMutation := without_error;
     deleteMutation := without_error |}.

Definition Step (A : Type) : Type :=
  World T * Mutations -> World T * Mutations * Settled A.

Record UseHistoryMutationsReturn : Type := {
  createHistory : C -> Step (BaseResponse T);
  updateHistory : string -> U -> Step (BaseResponse T);
  deleteHistory : string -> Step (BaseResponse T);
  isCreating : bool;
  isUpdating : bool;
  isDeleting : bool;
  error : option string;
  clearError : Mutations -> Mutations
}.

Definition invalidate (userId : option string) (w : World T) : World T :=
  let w1 :=
    match userId with
    | Some uid =>
        if Js.truthy userId
        then invalidateQueries (QUERY_KEYS.histories uid) w
        else w
    | None => w
    end in
  invalidateQueries QUERY_KEYS.historiesTotal w1.

Definition createOptions (client : StarterClient.t T)
    (userId token : option string) : MutationOptions C (BaseResponse T) :=
  {| mutationFn := fun data =>
       StarterClient.createHistory client
         (Js.template userId) data (Js.template token);
     onSuccess := fun response w =>
       if success response then invalidate userId w else w |}.

Definition updateOptions (client : StarterClient.t T)
    (userId token : option string)
    : MutationOptions (string * U) (BaseResponse T) :=
  {| mutationFn := fun '(historyId, data) =>
       StarterClient.updateHistory client
         (Js.template userId) historyId data (Js.template token);
     onSuccess := fun response w =>
       if success response then invalidate userId w else w |}.

Definition deleteOptions (client : StarterClient.t T)
    (userId token : option string)
    : MutationOptions string (BaseResponse T) :=
  {| mutationFn := fun historyId =>
       StarterClient.deleteHistory client
         (Js.template userId) historyId (Js.template token);
     onSuccess := fun response w =>
       if success response then invalidate userId w else w |}.

Definition useHistoryMutations (qc : QueryClient)
    (networkClient : NetworkClient T) (baseUrl : string)
    (userId token : option string) (ms : Mutations)
    : UseHistoryMutationsReturn :=
  let client := StarterClient.new baseUrl networkClient in
  let mutationError :=
    Js.nullish_opt
      (Js.nullish_opt (mutation_error (createMutation ms))
                      (mutation_error (updateMutation ms)))
      (mutation_error (deleteMutation ms)) in
  {| createHistory := fun data '(w, s) =>
       let '(w', m, r) :=
         mutateAsync qc (createOptions client userId token) data w in
       (w', {| createMutation := m;
               updateMutation := updateMutation s;
               deleteMutation := deleteMutation s |}, r);
     updateHistory := fun historyId data '(w, s) =>
       let '(w', m, r) :=
         mutateAsync qc (updateOptions client userId token)
           (historyId, data) w in
       (w', {| createMutation := createMutation s;
               updateMutation := m;
               deleteMutation := deleteMutation s |}, r);
     deleteHistory := fun historyId '(w, s) =>
       let '(w', m, r) :=
         mutateAsync qc (deleteOptions client userId token) historyId w in
       (w', {| createMutation := createMutation s;
               updateMutation := updateMutation s;
               deleteMutation := m |}, r);
     isCreating := isPending (createMutation ms);
     isUpdating := isPending (updateMutation ms);
     isDeleting := isPending (deleteMutation ms);
     error := Js.message_of mutationError;
     clearError := fun _ => initial |}.

End Hook.
Arguments Mutations : clear implicits.
Arguments UseHistoryMutationsReturn : clear implicits.
End UseHistoryMutations.

(** ** Vocabulary of the properties *)

(** Both the character at [i] and the next one are slashes. *)
Definition double_slash_at (i : nat) (s : string) : Prop :=
  String.get i s = Some "/"%char /\ String.get (S i) s = Some "/"%char.

(** A call of one of the six methods of the client, with its arguments. *)
Inductive Call (C U : Type) : Type :=
| GetUser (userId token : string)
| GetHistories (userId token : string)
| CreateHistory (userId : string) (data : C) (token : string)
| UpdateHistory (userId historyId : string) (data : U) (token : string)
| DeleteHistory (userId historyId token : string)
| GetHistoriesTotal.
Arguments GetUser {C U} _ _.
Arguments GetHistories {C U} _ _.
Arguments CreateHistory {C U} _ _ _.
Arguments UpdateHistory {C U} _ _ _ _.
Arguments DeleteHistory {C U} _ _ _.
Arguments GetHistoriesTotal {C U}.

Definition invoke {T C U} `{!Stringify C} `{!Stringify U}
    (client : StarterClient.t T) (c : Call C U) : Async T (BaseResponse T) :=
  match c with
  | GetUser userId token => StarterClient.getUser client userId token
  | GetHistories userId token => StarterClient.getHistories client userId token
  | CreateHistory userId data token =>
      StarterClient.createHistory client userId data token
  | UpdateHistory userId historyId data token =>
      StarterClient.updateHistory client userId historyId data token
  | DeleteHistory userId historyId token =>
      StarterClient.deleteHistory client userId historyId token
  | GetHistoriesTotal => StarterClient.getHistoriesTotal client
  end.

(** The token a call is made with; the public total takes none. *)
Definition credential {C U} (c : Call C U) : option string :=
  match c with
  | GetUser _ token | GetHistories _ token | CreateHistory _ _ token
  | UpdateHistory _ _ _ token | DeleteHistory _ _ token => Some token
  | GetHistoriesTotal => None
  end.

(** What the caller of a client method gets for an answer of the transport
    when the client adds nothing of its own: the envelope of a fulfilled
    call, the very rejection of a rejected one. *)
Definition unwrapped {T} (answer : Settled (NetworkResponse T))
    : Settled (BaseResponse T) :=
  match answer with
  | Fulfilled response => Fulfilled (response_data response)
  | Rejected e => Rejected e
  end.

(** [createMockNetworkClient] of the client's test file: every verb resolves
    with [{ data: responseData }]. *)
Definition createMockNetworkClient {T} (responseData : BaseResponse T)
    : NetworkClient T :=
  let mockResponse := {| response_data := responseData |} in
  {| nc_get := fun _ _ _ => Fulfilled mockResponse;
     nc_post := fun _ _ _ => Fulfilled mockResponse;
     nc_put := fun _ _ _ => Fulfilled mockResponse;
     nc_delete := fun _ _ _ => Fulfilled mockResponse |}.

(** The [User] of the test's fixture. *)
Record User : Type := {
  firebase_uid : string;
  email : option string;
  display_name : option string;
  created_at : option string;
  updated_at : option string
}.

(** The request shapes of the test file, and a printer for them that stands
    in for [JSON.stringify] where a concrete one is needed (it does not
    escape, which the values below do not need). *)
Record HistoryCreateRequest : Type := {
  create_datetime : string;
  create_value : Z
}.

Record HistoryUpdateRequest : Type := {
  update_datetime : option string;
  update_value : option Z
}.

Definition digit (n : Z) : string :=
  String (Ascii.ascii_of_N (48 + Z.to_N (n mod 10))) EmptyString.

Fixpoint decimal_fuel (fuel : nat) (n : Z) : string :=
  match fuel with
  | O => digit n
  | S k => if n <? 10 then digit n else decimal_fuel k (n / 10) +:+ digit n
  end.

Definition decimal (n : Z) : string :=
  if n <? 0 then "-" +:+ decimal_fuel (Z.to_nat (Z.log2 (- n))) (- n)
  else decimal_fuel (Z.to_nat (Z.log2 n)) n.

Definition quoted (s : string) : string :=
  let q := String (Ascii.ascii_of_nat 34) EmptyString in
  q +:+ s +:+ q.

Definition member (key value : string) : string :=
  quoted key +:+ ":" +:+ value.

#[export] Instance stringify_create : Stringify HistoryCreateRequest :=
  fun d =>
    "{" +:+ member "datetime" (quoted (create_datetime d)) +:+ ","
    +:+ member "value" (decimal (create_value d)) +:+ "}".

#[export] Instance stringify_update : Stringify HistoryUpdateRequest :=
  fun d =>
    let datetime :=
      match update_datetime d with
      | Some s => [member "datetime" (quoted s)]
      | None => []
      end in
    let value :=
      match update_value d with
      | Some n => [member "value" (decimal n)]
      | None => []
      end in
    "{" +:+ String.concat "," (datetime ++ value) +:+ "}".

(** Every method of the client is one [send] followed by the projection of
    [response.data]: the request it makes is a function of its arguments. *)
Definition request_of {T C U} `{!Stringify C} `{!Stringify U}
    (client : StarterClient.t T) (c : Call C U) : Request :=
  let base := StarterClient.baseUrl client in
  match c with
  | GetUser userId token =>
      {| verb := GET;
         url := buildUrl base ("/api/v1/users/" +:+ userId);
         options := {| headers := createAuthHeaders token; body := None |} |}
  | GetHistories userId token =>
      {| verb := GET;
         url := buildUrl base ("/api/v1/users/" +:+ userId +:+ "/histories");
         options := {| headers := createAuthHeaders token; body := None |} |}
  | CreateHistory userId data token =>
      {| verb := POST;
         url := buildUrl base ("/api/v1/users/" +:+ userId +:+ "/histories");
         options := {| headers := createAuthHeaders token;
                       body := Some (JSON_stringify data) |} |}
  | UpdateHistory userId historyId data token =>
      {| verb := PUT;
         url := buildUrl base
                  ("/api/v1/users/" +:+ userId +:+ "/histories/" +:+ historyId);
         options := {| headers := createAuthHeaders token;
                       body := Some (JSON_stringify data) |} |}
  | DeleteHistory userId historyId token =>
      {| verb := DELETE;
         url := buildUrl base
                  ("/api/v1/users/" +:+ userId +:+ "/histories/" +:+ historyId);
         options := {| headers := createAuthHeaders token; body := None |} |}
  | GetHistoriesTotal =>
      {| verb := GET;
         url := buildUrl base "/api/v1/histories/total";
         options := {| headers := createHeaders; body := None |} |}
  end.

(** The transport resolves every call with the envelope [envelope]. *)
Definition resolves_with {T} (nc : NetworkClient T) (envelope : BaseResponse T)
    : Prop :=
  forall v log u o,
    dispatch nc v log u o = Fulfilled {| response_data := envelope |}.

(** What a query function makes of an envelope: the data when it is there
    and [success] is set, and otherwise an [Error] with the envelope's message
    or the hook's fallback. *)
Definition checked {T} (fallback : string) (envelope : BaseResponse T)
    : Settled T :=
  match success envelope, data envelope with
  | true, Some d => Fulfilled d
  | _, _ => Rejected (Js.ErrorObject (Js.or_else (error envelope) fallback))
  end.

(** The two states of [useHistories]. *)
Inductive Variant : Type := Literals | Defaults.

Definition listOptions {History} (v : Variant) :=
  match v with
  | Literals => @UseHistories.queryOptions History
  | Defaults => @UseHistoriesDefaults.queryOptions History
  end.

Definition useHistories {History} (v : Variant) :=
  match v with
  | Literals => @UseHistories.useHistories History
  | Defaults => @UseHistoriesDefaults.useHistories History
  end.

(** A call of one of the three functions the mutation hook returns. *)
Inductive Mutation (C U : Type) : Type :=
| Create (data : C)
| Update (historyId : string) (data : U)
| Delete (historyId : string).
Arguments Create {C U} _.
Arguments Update {C U} _ _.
Arguments Delete {C U} _.

Definition perform {T C U}
    (hook : UseHistoryMutations.UseHistoryMutationsReturn T C U)
    (m : Mutation C U) : UseHistoryMutations.Step (BaseResponse T) :=
  match m with
  | Create data => UseHistoryMutations.createHistory hook data
  | Update historyId data => UseHistoryMutations.updateHistory hook historyId data
  | Delete historyId => UseHistoryMutations.deleteHistory hook historyId
  end.

(** The state of the mutations once [m] has run and fulfilled. *)
Definition fulfilled_in {C U} (m : Mutation C U)
    (ms : UseHistoryMutations.Mutations) : UseHistoryMutations.Mutations :=
  match m with
  | Create _ =>
      {| UseHistoryMutations.createMutation := without_error;
         UseHistoryMutations.updateMutation := UseHistoryMutations.updateMutation ms;
         UseHistoryMutations.deleteMutation := UseHistoryMutations.deleteMutation ms |}
  | Update _ _ =>
      {| UseHistoryMutations.createMutation := UseHistoryMutations.createMutation ms;
         UseHistoryMutations.updateMutation := without_error;
         UseHistoryMutations.deleteMutation := UseHistoryMutations.deleteMutation ms |}
  | Delete _ =>
      {| UseHistoryMutations.createMutation := UseHistoryMutations.createMutation ms;
         UseHistoryMutations.updateMutation := UseHistoryMutations.updateMutation ms;
         UseHistoryMutations.deleteMutation := without_error |}
  end.

(** A [History] as the spec describes it: an identifier the server assigns,
    a timestamp and a numeric value. *)
Record History : Type := {
  history_id : string;
  history_datetime : string;
  history_value : Z
}.

(** An engine that does not retry. *)
Definition no_retry : QueryClient := {| query_retry := 0; mutation_retry := 0 |}.

(** Envelopes for the examples: success without data, and a failure with the
    server's message. *)
Definition success_without_data {T} : BaseResponse T :=
  {| success := true; data := None; error := None |}.

Definition failure {T} (message : string) : BaseResponse T :=
  {| success := false; data := None; error := Some message |}.

(** The request of the test of [createHistory]. *)
Definition sample_create : HistoryCreateRequest :=
  {| create_datetime := "2024-01-01T00:00:00Z"; create_value := 100 |}.

(** Envelopes of success for the examples. *)
Definition sample_histories : BaseResponse (list History) :=
  {| success := true;
     data := Some [{| history_id := "hist-456";
                      history_datetime := "2024-01-01T00:00:00Z";
                      history_value := 100 |}];
     error := None |}.

Definition sample_total : BaseResponse HistoryTotalResponse.t :=
  {| success := true;
     data := Some {| HistoryTotalResponse.total := 42 |};
     error := None |}.

(** A world in which nothing has happened yet. *)
Definition fresh {T} : World T :=
  {| calls := []; invalidated := []; cache := ∅; now := 0 |}.

(** The fixture of the test of [getUser]. *)
Definition userData : BaseResponse User :=
  {| success := true;
     data := Some {| firebase_uid := "user-123";
                     email := Some "test@example.com";
                     display_name := Some "Test";
                     created_at := None;
                     updated_at := None |};
     error := None |}.

(** The transport rejects every call with [e]. *)
Definition rejects_with {T} (nc : NetworkClient T) (e : Js.Thrown) : Prop :=
  forall v log u o, dispatch nc v log u o = Rejected e.

(** A transport for the examples that rejects every call with [e], as a
    mock set up with [mockRejectedValue] does. *)
Definition createRejectingNetworkClient {T} (e : Js.Thrown) : NetworkClient T :=
  {| nc_get := fun _ _ _ => Rejected e;
     nc_post := fun _ _ _ => Rejected e;
     nc_put := fun _ _ _ => Rejected e;
     nc_delete := fun _ _ _ => Rejected e |}.

(** A transport for the examples whose [post] and [put] are rejected with
    errors of their own, while [get] and [delete] resolve. *)
Definition createFailingWrites {T} (responseData : BaseResponse T)
    (postError putError : string) : NetworkClient T :=
  let mockResponse := {| response_data := responseData |} in
  {| nc_get := fun _ _ _ => Fulfilled mockResponse;
     nc_post := fun _ _ _ => Rejected (Js.ErrorObject postError);
     nc_put := fun _ _ _ => Rejected (Js.ErrorObject putError);
     nc_delete := fun _ _ _ => Fulfilled mockResponse |}.

(** The call of the client that a function of the mutation hook makes: the
    asserted user id and token reach the client as the template literals
    print them. *)
Definition call_of {C U} (userId token : option string) (m : Mutation C U)
    : Call C U :=
  match m with
  | Create data =>
      CreateHistory (Js.template userId) data (Js.template token)
  | Update historyId data =>
      UpdateHistory (Js.template userId) historyId data (Js.template token)
  | Delete historyId =>
      DeleteHistory (Js.template userId) historyId (Js.template token)
  end.

(** What a mutation exposes once its promise has settled. *)
Definition settled_state {R} (s : Settled R) : MutationState :=
  match s with
  | Fulfilled _ => without_error
  | Rejected e => {| mutation_error := Some e; isPending := false |}
  end.

(** The state of the three mutations once [m] has settled with state [st]. *)
Definition settled_in {C U} (m : Mutation C U) (st : MutationState)
    (ms : UseHistoryMutations.Mutations) : UseHistoryMutations.Mutations :=
  match m with
  | Create _ =>
      {| UseHistoryMutations.createMutation := st;
         UseHistoryMutations.updateMutation := UseHistoryMutations.updateMutation ms;
         UseHistoryMutations.deleteMutation := UseHistoryMutations.deleteMutation ms |}
  | Update _ _ =>
      {| UseHistoryMutations.createMutation := UseHistoryMutations.createMutation ms;
         UseHistoryMutations.updateMutation := st;
         UseHistoryMutations.deleteMutation := UseHistoryMutations.deleteMutation ms |}
  | Delete _ =>
      {| UseHistoryMutations.createMutation := UseHistoryMutations.createMutation ms;
         UseHistoryMutations.updateMutation := UseHistoryMutations.updateMutation ms;
         UseHistoryMutations.deleteMutation := st |}
  end.

(** The request of the list hook. *)
Definition historiesRequest (baseUrl : string) (userId token : option string)
    : Request :=
  {| verb := GET;
     url := buildUrl baseUrl
              ("/api/v1/users/" +:+ Js.template userId +:+ "/histories");
     options := {| headers := createAuthHeaders (Js.template token);
                   body := None |} |}.

(** The request of the total hook. *)
Definition totalRequest (baseUrl : string) : Request :=
  {| verb := GET;
     url := buildUrl baseUrl "/api/v1/histories/total";
     options := {| headers := createHeaders; body := None |} |}.

(** An envelope of success with one history, for the examples of the
    mutation hook. *)
Definition sample_histories_one : BaseResponse History :=
  {| success := true;
     data := Some {| history_id := "hist-456";
                     history_datetime := "2024-01-01T00:00:00Z";
                     history_value := 100 |};
     error := None |}.

(** * Properties *)

(** ** [buildUrl] *)

Section TrailingSlash.

Lemma endsWith_cons c r suffix :
  Js.endsWith (String c r) suffix
  = String.eqb (String c r) suffix || Js.endsWith r suffix.
Proof. reflexivity. Qed.

Lemma replace_cons c d r :
  Js.replace_trailing_slash (String c (String d r))
  = String c (Js.replace_trailing_slash (String d r)).
Proof. reflexivity. Qed.

Lemma replace_without_slash s :
  Js.endsWith s "/" = false -> Js.replace_trailing_slash s = s.
Proof.
  induction s as [|c r IH]; [reflexivity|].
  destruct r as [|d r'].
  - cbn. destruct (Ascii.eqb_spec c "/") as [->|]; [discriminate|reflexivity].
  - rewrite endsWith_cons. intros H%orb_false_elim.
    destruct H as [_ H]. now rewrite replace_cons, (IH H).
Qed.

Lemma replace_with_slash s :
  Js.endsWith s "/" = true -> s = Js.replace_trailing_slash s +:+ "/".
Proof.
  induction s as [|c r IH]; [discriminate|].
  destruct r as [|d r'].
  - cbn. destruct (Ascii.eqb_spec c "/") as [->|]; [reflexivity|discriminate].
  - rewrite endsWith_cons.
    replace (String.eqb (String c (String d r')) "/") with false
      by (cbn; now destruct (Ascii.eqb c "/"), r').
    cbn [orb]. intros H. rewrite replace_cons.
    change (String c (Js.replace_trailing_slash (String d r')) +:+ "/")
      with (String c (Js.replace_trailing_slash (String d r') +:+ "/")).
    now rewrite <- (IH H).
Qed.

(** After the replacement a slash is left at the end only if the input
    ended in two of them. *)
Lemma replace_leaves_no_slash s :
  Js.endsWith s "//" = false ->
  Js.endsWith (Js.replace_trailing_slash s) "/" = false.
Proof.
  induction s as [|c r IH]; [reflexivity|].
  destruct r as [|d r'].
  - intros _. cbn. destruct (Ascii.eqb_spec c "/") as [->|n]; [reflexivity|].
    cbn. destruct (Ascii.eqb_spec c "/"); [contradiction|reflexivity].
  - rewrite endsWith_cons. intros H%orb_false_elim.
    destruct H as [Hhd Htl]. specialize (IH Htl).
    rewrite replace_cons, endsWith_cons, IH, orb_false_r.
    destruct r' as [|f r''].
    + (* two characters: the second one goes when it is a slash *)
      cbn in Hhd |- *.
      destruct (Ascii.eqb c "/"), (Ascii.eqb d "/"); cbn; congruence.
    + rewrite replace_cons. cbn. now destruct (Ascii.eqb c "/").
Qed.

Lemma last_slash_endsWith s i :
  S i = String.length s -> String.get i s = Some "/"%char ->
  Js.endsWith s "/" = true.
Proof.
  revert i. induction s as [|c r IH]; intros i Hlen Hget; [discriminate|].
  rewrite endsWith_cons. destruct i as [|i].
  - destruct r; [|discriminate]. cbn in Hget. injection Hget as ->.
    reflexivity.
  - cbn in Hlen, Hget. rewrite (IH i); [apply orb_true_r|lia|exact Hget].
Qed.

End TrailingSlash.

(** C3, as the code has it: [buildUrl] removes one trailing slash of the base
    and appends the path.  When the base does not end in two slashes, the
    cleaned base does not end in a slash, so no two slashes meet where the
    path is joined on, and every double slash of the result is one of the
    cleaned base (such as the one after the scheme) or one of the path. *)
Theorem buildUrl_no_double_slash_at_join (baseUrl path : string) :
  Js.endsWith baseUrl "//" = false ->
  let cleanBase := Js.replace_trailing_slash baseUrl in
  buildUrl baseUrl path = cleanBase +:+ path
  /\ (forall i, S i = String.length cleanBase ->
                ~ double_slash_at i (buildUrl baseUrl path))
  /\ (forall j, double_slash_at j (buildUrl baseUrl path) ->
                double_slash_at j cleanBase
                \/ exists k, j = (k + String.length cleanBase)%nat
                             /\ double_slash_at k path).
Proof.
  intros Hbase cleanBase.
  assert (forall i, S i = String.length cleanBase ->
                    ~ double_slash_at i (buildUrl baseUrl path)) as Hjoin.
  { intros i Hi [Hleft _]. unfold buildUrl in Hleft. fold cleanBase in Hleft.
    rewrite <- String.append_correct1 in Hleft by lia.
    pose proof (last_slash_endsWith _ _ Hi Hleft) as Hends.
    unfold cleanBase in Hends.
    rewrite (replace_leaves_no_slash _ Hbase) in Hends. discriminate. }
  split; [reflexivity|]. split; [exact Hjoin|].
  intros j Hj.
  destruct (Nat.lt_trichotomy (S j) (String.length cleanBase)) as [Hlt|[Heq|Hgt]].
  - left. destruct Hj as [H0 H1]. unfold buildUrl in H0, H1.
    fold cleanBase in H0, H1.
    rewrite <- String.append_correct1 in H0 by lia.
    rewrite <- String.append_correct1 in H1 by lia. now split.
  - destruct (Hjoin j Heq Hj).
  - right. exists (j - String.length cleanBase)%nat.
    split; [lia|]. destruct Hj as [H0 H1]. unfold buildUrl in H0, H1.
    fold cleanBase in H0, H1. split.
    + rewrite (String.append_correct2 cleanBase).
      now replace (j - String.length cleanBase + String.length cleanBase)%nat
        with j by lia.
    + rewrite (String.append_correct2 cleanBase).
      now replace (S (j - String.length cleanBase) + String.length cleanBase)%nat
        with (S j) by lia.
Qed.

Lemma buildUrl_no_double_slash_at_join_witness :
  buildUrl "https://api.example.com/" "/api/v1/histories/total"
  = "https://api.example.com/api/v1/histories/total"
  /\ ~ double_slash_at 22
         (buildUrl "https://api.example.com/" "/api/v1/histories/total")
  /\ (double_slash_at 6
        (buildUrl "https://api.example.com/" "/api/v1/histories/total") ->
      double_slash_at 6 "https://api.example.com"
      \/ exists k, 6%nat = (k + 23)%nat
                   /\ double_slash_at k "/api/v1/histories/total").
Proof.
  destruct (buildUrl_no_double_slash_at_join
              "https://api.example.com/" "/api/v1/histories/total" eq_refl)
    as (Heq & Hjoin & Hrest).
  split; [exact Heq|]. split; [exact (Hjoin 22%nat eq_refl)|exact (Hrest 6%nat)].
Defined.

(** C3, as the claim has it, fails: a base that ends in two slashes keeps one
    of them, which meets the slash the path starts with. *)
Lemma buildUrl_double_slash_counterexample :
  buildUrl "https://api.example.com//" "/api/v1/histories/total"
  = "https://api.example.com//api/v1/histories/total"
  /\ S 23 = String.length (Js.replace_trailing_slash "https://api.example.com//")
  /\ double_slash_at 23
       (buildUrl "https://api.example.com//" "/api/v1/histories/total").
Proof. repeat split. Qed.

(** ** The client *)

Section ClientProperties.
Context {T C U : Type} `{!Stringify C} `{!Stringify U}.
Implicit Types (client : StarterClient.t T) (c : Call C U) (w : World T).

Lemma invoke_eq client c w :
  invoke client c w
  = (logged (request_of client c) w,
     unwrapped
       (dispatch (StarterClient.networkClient client)
          (verb (request_of client c)) (calls w)
          (url (request_of client c)) (options (request_of client c)))).
Proof.
  destruct c; cbn;
    unfold StarterClient.getUser, StarterClient.getHistories,
      StarterClient.createHistory, StarterClient.updateHistory,
      StarterClient.deleteHistory, StarterClient.getHistoriesTotal,
      bind, send, ret, unwrapped; cbn;
    match goal with
    | |- context [match ?answer with Fulfilled _ => _ | Rejected _ => _ end] =>
        destruct answer; reflexivity
    end.
Qed.

(** C5: an authenticated method sends [Content-Type], [Accept] and
    [Authorization: Bearer <token>] and nothing else; the public total sends
    [Content-Type] and [Accept] only, and no [Authorization]. *)
Theorem client_headers client c w :
  exists r,
    calls (invoke client c w).1 = calls w ++ [r]
    /\ match credential c with
       | Some token =>
           headers (options r)
           = list_to_map [("Content-Type", "application/json");
                          ("Accept", "application/json");
                          ("Authorization", "Bearer " +:+ token)]
       | None =>
           headers (options r)
           = list_to_map [("Content-Type", "application/json");
                          ("Accept", "application/json")]
           /\ headers (options r) !! "Authorization" = None
       end.
Proof.
  exists (request_of client c). rewrite invoke_eq. split; [reflexivity|].
  destruct c; cbn; try reflexivity.
  split; [reflexivity|]. unfold createHeaders.
  rewrite !lookup_insert_ne by discriminate. apply lookup_empty.
Qed.

(** C7: a method of the client calls the transport once and touches
    nothing else, and its caller gets what the transport answered: the
    envelope when the call resolved, the same rejection when it was
    rejected. *)
Theorem client_one_call_no_catch client c w :
  exists r,
    calls (invoke client c w).1 = calls w ++ [r]
    /\ invalidated (invoke client c w).1 = invalidated w
    /\ cache (invoke client c w).1 = cache w
    /\ (invoke client c w).2
       = unwrapped (dispatch (StarterClient.networkClient client)
                      (verb r) (calls w) (url r) (options r)).
Proof.
  exists (request_of client c). rewrite invoke_eq. repeat split.
Qed.

End ClientProperties.

(** C9: when the transport's [get] resolves with an envelope of success that
    carries the user "user-123", [getUser('user-123', 'token')] resolves with
    that envelope. *)
Theorem getUser_resolves_with_envelope (nc : NetworkClient User)
    (baseUrl : string) (w : World User) (envelope : BaseResponse User)
    (user : User) :
  nc_get nc (calls w) (buildUrl baseUrl "/api/v1/users/user-123")
    {| headers := createAuthHeaders "token"; body := None |}
  = Fulfilled {| response_data := envelope |} ->
  success envelope = true ->
  data envelope = Some user ->
  firebase_uid user = "user-123" ->
  exists result,
    (StarterClient.getUser (StarterClient.new baseUrl nc) "user-123" "token" w).2
    = Fulfilled result
    /\ result = envelope
    /\ success result = true
    /\ firebase_uid <$> data result = Some "user-123".
Proof.
  intros Hget Hsuccess Hdata Huid. exists envelope.
  unfold StarterClient.getUser, bind, send, ret, dispatch.
  cbn [StarterClient.baseUrl StarterClient.networkClient].
  change ("/api/v1/users/" +:+ "user-123") with "/api/v1/users/user-123".
  rewrite Hget, Hdata. cbn. rewrite Huid. repeat split. exact Hsuccess.
Qed.

Lemma getUser_resolves_with_envelope_witness :
  exists result,
    (StarterClient.getUser
       (StarterClient.new "https://api.example.com"
          (createMockNetworkClient userData))
       "user-123" "token" fresh).2
    = Fulfilled result
    /\ result = userData
    /\ success result = true
    /\ firebase_uid <$> data result = Some "user-123".
Proof.
  refine (getUser_resolves_with_envelope
            (createMockNetworkClient userData) "https://api.example.com"
            fresh userData
            {| firebase_uid := "user-123";
               email := Some "test@example.com";
               display_name := Some "Test";
               created_at := None;
               updated_at := None |} _ _ _ _); reflexivity.
Defined.

(** ** The engine *)

Section EngineProperties.
Context {T : Type}.
Implicit Types (w : World T) (qc : QueryClient) (o : @QueryOptions T).

Lemma attempt_fulfilled {A} n (f : Async T A) w w' a :
  f w = (w', Fulfilled a) -> attempt n f w = (w', Fulfilled a).
Proof. intros H. destruct n; cbn; now rewrite H. Qed.

(** A function that is rejected with [e] wherever it starts, and leaves
    the cache and the invalidations alone, does so however often it is
    tried again. *)
Lemma attempt_rejected {A} (f : Async T A) e :
  (forall w, (f w).2 = Rejected e
             /\ invalidated (f w).1 = invalidated w
             /\ cache (f w).1 = cache w) ->
  forall n w, (attempt n f w).2 = Rejected e
              /\ invalidated (attempt n f w).1 = invalidated w
              /\ cache (attempt n f w).1 = cache w.
Proof.
  intros Hf. induction n as [|n IH]; intros w;
    destruct (Hf w) as (Hr & Hi & Hc); cbn;
    destruct (f w) as [w1 [a|e1]] eqn:Hfw; cbn in Hr, Hi, Hc;
    try discriminate.
  - now injection Hr as ->.
  - destruct (IH w1) as (Hr' & Hi' & Hc'). now rewrite Hr', Hi', Hc'.
Qed.

Lemma send_resolves (nc : NetworkClient T) envelope v u (ro : RequestOptions) w :
  resolves_with nc envelope ->
  send nc v u ro w
  = (logged {| verb := v; url := u; options := ro |} w,
     Fulfilled {| response_data := envelope |}).
Proof. intros H. unfold send. now rewrite H. Qed.

Lemma cached_store key d gc w :
  cached key (store key d gc w) = Some d.
Proof. unfold cached, store. cbn. now rewrite lookup_insert_eq. Qed.

Lemma is_fresh_none key stale w :
  cache w !! key = None -> is_fresh key stale w = false.
Proof. unfold is_fresh. now intros ->. Qed.

Lemma useQuery_disabled qc o w :
  enabled o = false ->
  useQuery qc o w
  = (w, {| query_data := cached (queryKey o) w;
           query_isLoading := false;
           query_error := None |}).
Proof. intros H. unfold useQuery. now rewrite H. Qed.

(** Fresh data is served as it is. *)
Lemma useQuery_served qc o w :
  is_fresh (queryKey o) (staleTime o) w = true ->
  useQuery qc o w
  = (w, {| query_data := cached (queryKey o) w;
           query_isLoading := false;
           query_error := None |}).
Proof. intros H. unfold useQuery. now rewrite H, andb_false_r. Qed.

Lemma useQuery_fulfilled qc o w w1 d :
  enabled o = true ->
  is_fresh (queryKey o) (staleTime o) w = false ->
  queryFn o w = (w1, Fulfilled d) ->
  useQuery qc o w
  = (store (queryKey o) d (gcTime o) w1,
     {| query_data := Some d; query_isLoading := false; query_error := None |}).
Proof.
  intros He Hs Hf. unfold useQuery.
  rewrite He, Hs, (attempt_fulfilled _ _ _ _ _ Hf). cbn [andb negb].
  now rewrite cached_store.
Qed.

Lemma useQuery_rejected qc o w e :
  enabled o = true ->
  is_fresh (queryKey o) (staleTime o) w = false ->
  (forall w, (queryFn o w).2 = Rejected e
             /\ invalidated (queryFn o w).1 = invalidated w
             /\ cache (queryFn o w).1 = cache w) ->
  (useQuery qc o w).2
  = {| query_data := cached (queryKey o) w;
       query_isLoading := false;
       query_error := Some e |}
  /\ invalidated (useQuery qc o w).1 = invalidated w
  /\ cache (useQuery qc o w).1 = cache w.
Proof.
  intros He Hs Hf. unfold useQuery. rewrite He, Hs. cbn [andb negb].
  destruct (attempt_rejected _ _ Hf (query_retry qc) w) as (Hr & Hi & Hc).
  destruct (attempt _ _ w) as [w1 [d|e1]]; cbn in Hr, Hi, Hc;
    [discriminate|]. injection Hr as ->. cbn.
  unfold cached. now rewrite Hc.
Qed.

End EngineProperties.

(** ** The query functions of the hooks *)

Lemma historiesQueryFn_resolves {History} (nc : NetworkClient (list History))
    envelope baseUrl userId token w :
  resolves_with nc envelope ->
  UseHistories.historiesQueryFn (StarterClient.new baseUrl nc) userId token w
  = (logged {| verb := GET;
               url := buildUrl baseUrl
                        ("/api/v1/users/" +:+ Js.template userId +:+ "/histories");
               options := {| headers := createAuthHeaders (Js.template token);
                             body := None |} |} w,
     checked "Failed to fetch histories" envelope).
Proof.
  intros H. unfold UseHistories.historiesQueryFn, StarterClient.getHistories, bind.
  cbn [StarterClient.baseUrl StarterClient.networkClient].
  rewrite (send_resolves _ _ _ _ _ _ H). unfold ret, checked. cbn.
  now destruct (success envelope), (data envelope).
Qed.

Lemma totalQueryFn_resolves (nc : NetworkClient HistoryTotalResponse.t)
    envelope baseUrl w :
  resolves_with nc envelope ->
  UseHistoriesTotal.totalQueryFn (StarterClient.new baseUrl nc) w
  = (logged {| verb := GET;
               url := buildUrl baseUrl "/api/v1/histories/total";
               options := {| headers := createHeaders; body := None |} |} w,
     checked "Failed to fetch total" envelope).
Proof.
  intros H. unfold UseHistoriesTotal.totalQueryFn, StarterClient.getHistoriesTotal, bind.
  cbn [StarterClient.baseUrl StarterClient.networkClient].
  rewrite (send_resolves _ _ _ _ _ _ H). unfold ret, checked. cbn.
  now destruct (success envelope), (data envelope).
Qed.

(** ** The mutation hook *)

Section MutationProperties.
Context {T C U : Type} `{!Stringify C} `{!Stringify U}.
Implicit Types (w : World T) (ms : UseHistoryMutations.Mutations)
  (m : Mutation C U) (userId token : option string).

Lemma invalidated_invalidate userId w :
  invalidated (UseHistoryMutations.invalidate userId w)
  = invalidated w
    ++ match userId with
       | Some uid => if Js.truthy userId then [QUERY_KEYS.histories uid] else []
       | None => []
       end
    ++ [QUERY_KEYS.historiesTotal].
Proof.
  unfold UseHistoryMutations.invalidate.
  destruct userId as [[|c uid]|]; cbn; try reflexivity.
  now rewrite <- app_assoc.
Qed.

(** When the transport resolves with an envelope, so does the mutation,
    whatever the envelope says; [onSuccess] then invalidates if [success]
    is set, and the mutation is left without an error. *)
Lemma perform_resolves qc (nc : NetworkClient T) baseUrl userId token m w ms
    envelope :
  resolves_with nc envelope ->
  exists r,
    perform (UseHistoryMutations.useHistoryMutations qc nc baseUrl userId token ms)
      m (w, ms)
    = (if success envelope
       then UseHistoryMutations.invalidate userId (logged r w)
       else logged r w,
       fulfilled_in m ms,
       Fulfilled envelope).
Proof.
  intros H. destruct m as [d|h d|h]; cbn;
    unfold mutateAsync; cbn;
    [ unfold StarterClient.createHistory
    | unfold StarterClient.updateHistory
    | unfold StarterClient.deleteHistory ];
    unfold bind; cbn [StarterClient.baseUrl StarterClient.networkClient];
    erewrite attempt_fulfilled
      by (rewrite (send_resolves _ _ _ _ _ _ H); reflexivity);
    eexists; reflexivity.
Qed.

End MutationProperties.

(** ** The query hooks *)

Section QueryHookProperties.
Context {History : Type}.
Implicit Types (v : Variant) (qc : QueryClient)
  (nc : NetworkClient (list History)) (nt : NetworkClient HistoryTotalResponse.t)
  (userId token : option string) (options : option HookOptions).

Lemma useHistories_eq v qc nc baseUrl userId token options w :
  useHistories v qc nc baseUrl userId token options w
  = let '(w', q) :=
      useQuery qc (listOptions v nc baseUrl userId token options) w in
    (w', {| UseHistories.histories :=
              Js.nullish (query_data q) UseHistories.EMPTY_HISTORIES;
            UseHistories.isLoading := query_isLoading q;
            UseHistories.error := Js.message_of (query_error q) |}).
Proof. now destruct v. Qed.

Lemma listOptions_queryFn v nc baseUrl userId token options :
  queryFn (listOptions v nc baseUrl userId token options)
  = UseHistories.historiesQueryFn (StarterClient.new baseUrl nc) userId token.
Proof. now destruct v. Qed.

Lemma listOptions_queryKey v nc baseUrl userId token options :
  queryKey (listOptions v nc baseUrl userId token options)
  = QUERY_KEYS.histories (Js.nullish userId EmptyString).
Proof. now destruct v. Qed.

Lemma listOptions_enabled v nc baseUrl userId token options :
  enabled (listOptions v nc baseUrl userId token options)
  = Js.nullish (options ≫= option_enabled) true
    && Js.truthy userId && Js.truthy token.
Proof. now destruct v. Qed.

Lemma listOptions_windows v nc baseUrl userId token options :
  staleTime (listOptions v nc baseUrl userId token options) = 5 * 60 * 1000
  /\ gcTime (listOptions v nc baseUrl userId token options) = 30 * 60 * 1000.
Proof. now destruct v. Qed.

Lemma listOptions_fresh v nc baseUrl userId token options
    (w : World (list History)) :
  is_fresh (queryKey (listOptions v nc baseUrl userId token options))
    (staleTime (listOptions v nc baseUrl userId token options)) w
  = is_fresh (QUERY_KEYS.histories (Js.nullish userId EmptyString))
      (5 * 60 * 1000) w.
Proof. now destruct v. Qed.

(** A rejected fetch of the list: the message is the hook's error and the
    histories are what the cache held. *)
Lemma useHistories_rejected v qc nc baseUrl userId token options w envelope msg :
  resolves_with nc envelope ->
  enabled (listOptions v nc baseUrl userId token options) = true ->
  is_fresh (QUERY_KEYS.histories (Js.nullish userId EmptyString))
    (5 * 60 * 1000) w = false ->
  checked "Failed to fetch histories" envelope = Rejected (Js.ErrorObject msg) ->
  let r := (useHistories v qc nc baseUrl userId token options w).2 in
  UseHistories.error r = Some msg
  /\ UseHistories.histories r
     = Js.nullish
         (cached (QUERY_KEYS.histories (Js.nullish userId EmptyString)) w) [].
Proof.
  intros Hnc Hen Hstale Hchk r. subst r. rewrite useHistories_eq.
  rewrite <- (listOptions_fresh v nc baseUrl userId token options) in Hstale.
  destruct (useQuery_rejected qc _ w (Js.ErrorObject msg) Hen Hstale)
    as (Hq & _).
  { intros w0. rewrite listOptions_queryFn,
      (historiesQueryFn_resolves _ _ _ _ _ _ Hnc), Hchk. now cbn. }
  destruct (useQuery _ _ w) as [w' q]. cbn in Hq. subst q. cbn.
  now rewrite listOptions_queryKey.
Qed.

(** A fulfilled fetch of the list. *)
Lemma useHistories_fulfilled v qc nc baseUrl userId token options w envelope d :
  resolves_with nc envelope ->
  enabled (listOptions v nc baseUrl userId token options) = true ->
  is_fresh (QUERY_KEYS.histories (Js.nullish userId EmptyString))
    (5 * 60 * 1000) w = false ->
  checked "Failed to fetch histories" envelope = Fulfilled d ->
  useHistories v qc nc baseUrl userId token options w
  = (store (QUERY_KEYS.histories (Js.nullish userId EmptyString)) d
       (30 * 60 * 1000) (logged (historiesRequest baseUrl userId token) w),
     {| UseHistories.histories := d;
        UseHistories.isLoading := false;
        UseHistories.error := None |}).
Proof.
  intros Hnc Hen Hstale Hchk. rewrite useHistories_eq.
  rewrite <- (listOptions_fresh v nc baseUrl userId token options) in Hstale.
  erewrite useQuery_fulfilled; [|exact Hen|exact Hstale|].
  2:{ rewrite listOptions_queryFn,
        (historiesQueryFn_resolves _ _ _ _ _ _ Hnc), Hchk. reflexivity. }
  rewrite listOptions_queryKey.
  destruct (listOptions_windows v nc baseUrl userId token options) as [_ ->].
  reflexivity.
Qed.

(** Fresh histories are shown without a fetch. *)
Lemma useHistories_served v qc nc baseUrl userId token options w :
  is_fresh (QUERY_KEYS.histories (Js.nullish userId EmptyString))
    (5 * 60 * 1000) w = true ->
  useHistories v qc nc baseUrl userId token options w
  = (w, {| UseHistories.histories :=
             Js.nullish
               (cached (QUERY_KEYS.histories (Js.nullish userId EmptyString)) w)
               [];
           UseHistories.isLoading := false;
           UseHistories.error := None |}).
Proof.
  intros Hfresh. rewrite useHistories_eq.
  rewrite <- (listOptions_fresh v nc baseUrl userId token options) in Hfresh.
  rewrite (useQuery_served _ _ _ Hfresh). cbn.
  now rewrite listOptions_queryKey.
Qed.

Lemma useHistoriesTotal_rejected qc nt baseUrl options w envelope msg :
  resolves_with nt envelope ->
  enabled (UseHistoriesTotal.queryOptions nt baseUrl options) = true ->
  is_fresh QUERY_KEYS.historiesTotal (5 * 60 * 1000) w = false ->
  checked "Failed to fetch total" envelope = Rejected (Js.ErrorObject msg) ->
  let r := (UseHistoriesTotal.useHistoriesTotal qc nt baseUrl options w).2 in
  UseHistoriesTotal.error r = Some msg
  /\ UseHistoriesTotal.total r
     = Js.nullish
         (HistoryTotalResponse.total <$> cached QUERY_KEYS.historiesTotal w) 0.
Proof.
  intros Hnt Hen Hstale Hchk r. subst r.
  unfold UseHistoriesTotal.useHistoriesTotal.
  destruct (useQuery_rejected qc _ w (Js.ErrorObject msg) Hen Hstale)
    as (Hq & _).
  { intros w0. cbn [queryFn UseHistoriesTotal.queryOptions].
    rewrite (totalQueryFn_resolves _ _ _ _ Hnt), Hchk. now cbn. }
  destruct (useQuery _ _ w) as [w' q]. cbn in Hq. subst q. now cbn.
Qed.

Lemma useHistoriesTotal_fulfilled qc nt baseUrl options w envelope d :
  resolves_with nt envelope ->
  enabled (UseHistoriesTotal.queryOptions nt baseUrl options) = true ->
  is_fresh QUERY_KEYS.historiesTotal (5 * 60 * 1000) w = false ->
  checked "Failed to fetch total" envelope = Fulfilled d ->
  UseHistoriesTotal.useHistoriesTotal qc nt baseUrl options w
  = (store QUERY_KEYS.historiesTotal d (30 * 60 * 1000)
       (logged (totalRequest baseUrl) w),
     {| UseHistoriesTotal.total := HistoryTotalResponse.total d;
        UseHistoriesTotal.isLoading := false;
        UseHistoriesTotal.error := None |}).
Proof.
  intros Hnt Hen Hstale Hchk. unfold UseHistoriesTotal.useHistoriesTotal.
  erewrite useQuery_fulfilled; [|exact Hen|exact Hstale|].
  2:{ cbn [queryFn UseHistoriesTotal.queryOptions].
      rewrite (totalQueryFn_resolves _ _ _ _ Hnt), Hchk. reflexivity. }
  reflexivity.
Qed.

(** A fresh total is shown without a fetch. *)
Lemma useHistoriesTotal_served qc nt baseUrl options w :
  is_fresh QUERY_KEYS.historiesTotal (5 * 60 * 1000) w = true ->
  UseHistoriesTotal.useHistoriesTotal qc nt baseUrl options w
  = (w, {| UseHistoriesTotal.total :=
             Js.nullish
               (HistoryTotalResponse.total
                  <$> cached QUERY_KEYS.historiesTotal w) 0;
           UseHistoriesTotal.isLoading := false;
           UseHistoriesTotal.error := None |}).
Proof.
  intros Hfresh. unfold UseHistoriesTotal.useHistoriesTotal.
  now rewrite (useQuery_served qc
                 (UseHistoriesTotal.queryOptions nt baseUrl options) w Hfresh).
Qed.

End QueryHookProperties.

(** ** Envelopes that are not a success with data *)

Lemma checked_failure {T} fallback (envelope : BaseResponse T) :
  success envelope = false ->
  checked fallback envelope
  = Rejected (Js.ErrorObject (Js.or_else (error envelope) fallback)).
Proof. unfold checked. now intros ->. Qed.

Lemma checked_missing {T} fallback (envelope : BaseResponse T) :
  data envelope = None ->
  checked fallback envelope
  = Rejected (Js.ErrorObject (Js.or_else (error envelope) fallback)).
Proof. unfold checked. intros ->. now destruct (success envelope). Qed.

Lemma checked_success {T} fallback (envelope : BaseResponse T) d :
  success envelope = true -> data envelope = Some d ->
  checked fallback envelope = Fulfilled d.
Proof. unfold checked. now intros -> ->. Qed.

Lemma error_after_fulfilled {T C U} `{!Stringify C} `{!Stringify U}
    qc (nc : NetworkClient T) baseUrl userId token (m : Mutation C U) :
  UseHistoryMutations.error
    (UseHistoryMutations.useHistoryMutations qc nc baseUrl userId token
       (fulfilled_in m UseHistoryMutations.initial))
  = None.
Proof. now destruct m. Qed.

(** C1, as the code has it: an envelope with [success: true] and no [data]
    makes the query function of the list hook and of the total hook throw, so
    the hook shows its empty or zero value together with an error, the
    envelope's message or the hook's fallback.  The mutations do not look at
    [data]: with [success: false] and no [data] the function resolves with
    the envelope and the hook's error stays null. *)
Theorem missing_data_is_an_error_for_queries :
  (forall (History : Type) v qc (nc : NetworkClient (list History))
          baseUrl userId token options w envelope,
      resolves_with nc envelope ->
      success envelope = true -> data envelope = None ->
      enabled (listOptions v nc baseUrl userId token options) = true ->
      cache w !! QUERY_KEYS.histories (Js.nullish userId EmptyString) = None ->
      let r := (useHistories v qc nc baseUrl userId token options w).2 in
      UseHistories.histories r = []
      /\ UseHistories.error r
         = Some (Js.or_else (error envelope) "Failed to fetch histories"))
  /\ (forall qc (nt : NetworkClient HistoryTotalResponse.t)
             baseUrl options w envelope,
      resolves_with nt envelope ->
      success envelope = true -> data envelope = None ->
      enabled (UseHistoriesTotal.queryOptions nt baseUrl options) = true ->
      cache w !! QUERY_KEYS.historiesTotal = None ->
      let r := (UseHistoriesTotal.useHistoriesTotal qc nt baseUrl options w).2 in
      UseHistoriesTotal.total r = 0
      /\ UseHistoriesTotal.error r
         = Some (Js.or_else (error envelope) "Failed to fetch total"))
  /\ (forall (T C U : Type) (sc : Stringify C) (su : Stringify U)
             qc (nc : NetworkClient T) baseUrl userId token
             (m : Mutation C U) w envelope,
      resolves_with nc envelope ->
      success envelope = false -> data envelope = None ->
      let hook := UseHistoryMutations.useHistoryMutations qc nc baseUrl userId token in
      let '(_, ms', settled) :=
        perform (hook UseHistoryMutations.initial) m
          (w, UseHistoryMutations.initial) in
      settled = Fulfilled envelope
      /\ UseHistoryMutations.error (hook ms') = None).
Proof.
  split; [|split].
  - intros History v qc nc baseUrl userId token options w envelope
      Hnc _ Hdata Hen Hcache r.
    destruct (useHistories_rejected v qc nc baseUrl userId token options w
                envelope _ Hnc Hen (is_fresh_none _ _ _ Hcache)
                (checked_missing _ _ Hdata)) as [He Hh].
    subst r. split; [|exact He]. rewrite Hh. unfold cached. now rewrite Hcache.
  - intros qc nt baseUrl options w envelope Hnt _ Hdata Hen Hcache r.
    destruct (useHistoriesTotal_rejected qc nt baseUrl options w
                envelope _ Hnt Hen (is_fresh_none _ _ _ Hcache)
                (checked_missing _ _ Hdata)) as [He Hh].
    subst r. split; [|exact He]. rewrite Hh. unfold cached. now rewrite Hcache.
  - intros T C U sc su qc nc baseUrl userId token m w envelope Hnc Hs _ hook.
    subst hook.
    destruct (perform_resolves qc nc baseUrl userId token m w
                UseHistoryMutations.initial envelope Hnc) as [r ->].
    split; [reflexivity|].
    exact (@error_after_fulfilled T C U sc su qc nc baseUrl userId token m).
Qed.

Lemma missing_data_is_an_error_for_queries_witness :
  (let r := (useHistories (History := History) Literals no_retry
               (createMockNetworkClient success_without_data)
               "https://api.example.com" (Some "user-123") (Some "token")
               None fresh).2 in
   UseHistories.histories r = []
   /\ UseHistories.error r = Some "Failed to fetch histories")
  /\ (let r := (UseHistoriesTotal.useHistoriesTotal no_retry
                  (createMockNetworkClient success_without_data)
                  "https://api.example.com" None fresh).2 in
      UseHistoriesTotal.total r = 0
      /\ UseHistoriesTotal.error r = Some "Failed to fetch total")
  /\ (let hook :=
        UseHistoryMutations.useHistoryMutations (T := History)
          (U := HistoryUpdateRequest) no_retry
          (createMockNetworkClient (failure "Not allowed"))
          "https://api.example.com" (Some "user-123") (Some "token") in
      let '(_, ms', settled) :=
        perform (hook UseHistoryMutations.initial) (Create sample_create)
          (fresh, UseHistoryMutations.initial) in
      settled = Fulfilled (failure "Not allowed")
      /\ UseHistoryMutations.error (hook ms') = None).
Proof.
  destruct missing_data_is_an_error_for_queries as (Hlist & Htotal & Hmut).
  split; [|split].
  - apply (Hlist History Literals no_retry
             (createMockNetworkClient success_without_data)
             "https://api.example.com" (Some "user-123") (Some "token") None
             fresh success_without_data); try reflexivity.
    intros [] ? ? ?; reflexivity.
  - apply (Htotal no_retry (createMockNetworkClient success_without_data)
             "https://api.example.com" None fresh success_without_data);
      try reflexivity.
    intros [] ? ? ?; reflexivity.
  - apply (Hmut History HistoryCreateRequest HistoryUpdateRequest _ _ no_retry
             (createMockNetworkClient (failure "Not allowed"))
             "https://api.example.com" (Some "user-123") (Some "token")
             (Create sample_create) fresh (failure "Not allowed"));
      try reflexivity.
    intros [] ? ? ?; reflexivity.
Defined.

(** C1, as the claim has it, fails on both counts: the list hook does treat
    [success: true] without [data] as an error, and a mutation does not treat
    [success: false] without [data] as a failure. *)
Lemma missing_data_counterexample :
  (let r := (useHistories (History := History) Literals no_retry
               (createMockNetworkClient success_without_data)
               "https://api.example.com" (Some "user-123") (Some "token")
               None fresh).2 in
   UseHistories.error r = Some "Failed to fetch histories"
   /\ UseHistories.error r <> None)
  /\ (let hook :=
        UseHistoryMutations.useHistoryMutations (T := History)
          (U := HistoryUpdateRequest) no_retry
          (createMockNetworkClient (failure "Not allowed"))
          "https://api.example.com" (Some "user-123") (Some "token") in
      let '(_, ms', settled) :=
        perform (hook UseHistoryMutations.initial) (Create sample_create)
          (fresh, UseHistoryMutations.initial) in
      settled = Fulfilled (failure "Not allowed")
      /\ UseHistoryMutations.error (hook ms') = None).
Proof. repeat split. discriminate. Qed.

(** C2, as the code has it: against a transport that resolves with an
    envelope whose [success] is false, the list hook and the total hook report
    an error, the envelope's message when it has one and the hook's fallback
    otherwise, and show their empty or zero value.  The create, update and
    delete functions resolve with the envelope itself: the hook's error stays
    null and nothing is invalidated. *)
Theorem failure_envelope_in_adapters :
  (forall (History : Type) v qc (nc : NetworkClient (list History))
          baseUrl userId token options w envelope,
      resolves_with nc envelope ->
      success envelope = false ->
      enabled (listOptions v nc baseUrl userId token options) = true ->
      cache w !! QUERY_KEYS.histories (Js.nullish userId EmptyString) = None ->
      let r := (useHistories v qc nc baseUrl userId token options w).2 in
      UseHistories.error r
      = Some (Js.or_else (error envelope) "Failed to fetch histories")
      /\ UseHistories.histories r = [])
  /\ (forall qc (nt : NetworkClient HistoryTotalResponse.t)
             baseUrl options w envelope,
      resolves_with nt envelope ->
      success envelope = false ->
      enabled (UseHistoriesTotal.queryOptions nt baseUrl options) = true ->
      cache w !! QUERY_KEYS.historiesTotal = None ->
      let r := (UseHistoriesTotal.useHistoriesTotal qc nt baseUrl options w).2 in
      UseHistoriesTotal.error r
      = Some (Js.or_else (error envelope) "Failed to fetch total")
      /\ UseHistoriesTotal.total r = 0)
  /\ (forall (T C U : Type) (sc : Stringify C) (su : Stringify U)
             qc (nc : NetworkClient T) baseUrl userId token
             (m : Mutation C U) w envelope,
      resolves_with nc envelope ->
      success envelope = false ->
      let hook := UseHistoryMutations.useHistoryMutations qc nc baseUrl userId token in
      let '(w', ms', settled) :=
        perform (hook UseHistoryMutations.initial) m
          (w, UseHistoryMutations.initial) in
      settled = Fulfilled envelope
      /\ UseHistoryMutations.error (hook ms') = None
      /\ invalidated w' = invalidated w).
Proof.
  split; [|split].
  - intros History v qc nc baseUrl userId token options w envelope
      Hnc Hs Hen Hcache r.
    destruct (useHistories_rejected v qc nc baseUrl userId token options w
                envelope _ Hnc Hen (is_fresh_none _ _ _ Hcache)
                (checked_failure _ _ Hs)) as [He Hh].
    subst r. split; [exact He|]. rewrite Hh. unfold cached. now rewrite Hcache.
  - intros qc nt baseUrl options w envelope Hnt Hs Hen Hcache r.
    destruct (useHistoriesTotal_rejected qc nt baseUrl options w
                envelope _ Hnt Hen (is_fresh_none _ _ _ Hcache)
                (checked_failure _ _ Hs)) as [He Hh].
    subst r. split; [exact He|]. rewrite Hh. unfold cached. now rewrite Hcache.
  - intros T C U sc su qc nc baseUrl userId token m w envelope Hnc Hs hook.
    subst hook.
    destruct (perform_resolves qc nc baseUrl userId token m w
                UseHistoryMutations.initial envelope Hnc) as [r ->].
    rewrite Hs. repeat split.
    exact (@error_after_fulfilled T C U sc su qc nc baseUrl userId token m).
Qed.

Lemma failure_envelope_in_adapters_witness :
  (let r := (useHistories (History := History) Defaults no_retry
               (createMockNetworkClient (failure "Not allowed"))
               "https://api.example.com" (Some "user-123") (Some "token")
               None fresh).2 in
   UseHistories.error r = Some "Not allowed"
   /\ UseHistories.histories r = [])
  /\ (let r := (UseHistoriesTotal.useHistoriesTotal no_retry
                  (createMockNetworkClient (failure "Not allowed"))
                  "https://api.example.com" None fresh).2 in
      UseHistoriesTotal.error r = Some "Not allowed"
      /\ UseHistoriesTotal.total r = 0)
  /\ (let hook :=
        UseHistoryMutations.useHistoryMutations (T := History)
          (C := HistoryCreateRequest) no_retry
          (createMockNetworkClient (failure "Not allowed"))
          "https://api.example.com" (Some "user-123") (Some "token") in
      let '(w', ms', settled) :=
        perform (hook UseHistoryMutations.initial)
          (Update "hist-456"
             {| update_datetime := None; update_value := Some 200 |})
          (fresh, UseHistoryMutations.initial) in
      settled = Fulfilled (failure "Not allowed")
      /\ UseHistoryMutations.error (hook ms') = None
      /\ invalidated w' = invalidated (fresh (T := History))).
Proof.
  destruct failure_envelope_in_adapters as (Hlist & Htotal & Hmut).
  split; [|split].
  - apply (Hlist History Defaults no_retry
             (createMockNetworkClient (failure "Not allowed"))
             "https://api.example.com" (Some "user-123") (Some "token") None
             fresh (failure "Not allowed")); try reflexivity.
    intros [] ? ? ?; reflexivity.
  - apply (Htotal no_retry (createMockNetworkClient (failure "Not allowed"))
             "https://api.example.com" None fresh (failure "Not allowed"));
      try reflexivity.
    intros [] ? ? ?; reflexivity.
  - apply (Hmut History HistoryCreateRequest HistoryUpdateRequest _ _ no_retry
             (createMockNetworkClient (failure "Not allowed"))
             "https://api.example.com" (Some "user-123") (Some "token")
             (Update "hist-456"
                {| update_datetime := None; update_value := Some 200 |})
             fresh (failure "Not allowed")); try reflexivity.
    intros [] ? ? ?; reflexivity.
Defined.

(** C2, as the claim has it, fails for the mutation functions: the server
    refuses a create with a message, and the hook's error is still null. *)
Lemma failure_envelope_counterexample :
  let hook :=
    UseHistoryMutations.useHistoryMutations (T := History)
      (U := HistoryUpdateRequest) no_retry
      (createMockNetworkClient (failure "Not allowed"))
      "https://api.example.com" (Some "user-123") (Some "token") in
  let '(_, ms', settled) :=
    perform (hook UseHistoryMutations.initial) (Create sample_create)
      (fresh, UseHistoryMutations.initial) in
  success (failure (T := History) "Not allowed") = false
  /\ settled = Fulfilled (failure "Not allowed")
  /\ UseHistoryMutations.error (hook ms') = None.
Proof. repeat split. Qed.

(** C4, as the code has it: with a user id that is a non-empty string, a
    mutation whose envelope has [success] set invalidates the list key of the
    user and then the key of the total, once each, and a mutation whose
    envelope has it cleared invalidates nothing. *)
Theorem mutation_invalidates_list_and_total {T C U : Type}
    `{!Stringify C} `{!Stringify U} qc (nc : NetworkClient T)
    (baseUrl : string) (userId token : option string) (uid : string)
    (m : Mutation C U) (w : World T) (ms : UseHistoryMutations.Mutations)
    (envelope : BaseResponse T) :
  resolves_with nc envelope ->
  userId = Some uid -> uid <> EmptyString ->
  let hook := UseHistoryMutations.useHistoryMutations qc nc baseUrl userId token in
  invalidated (perform (hook ms) m (w, ms)).1.1
  = invalidated w
    ++ (if success envelope
        then [QUERY_KEYS.histories uid; QUERY_KEYS.historiesTotal]
        else []).
Proof.
  intros Hnc -> Huid hook. subst hook.
  destruct (perform_resolves qc nc baseUrl (Some uid) token m w ms envelope Hnc)
    as [r ->].
  cbn [fst]. destruct (success envelope).
  - rewrite invalidated_invalidate. cbn [logged invalidated].
    destruct uid; [contradiction|reflexivity].
  - cbn. now rewrite app_nil_r.
Qed.

Lemma mutation_invalidates_list_and_total_witness :
  invalidated
    (perform
       (UseHistoryMutations.useHistoryMutations (T := History)
          (U := HistoryUpdateRequest) no_retry
          (createMockNetworkClient
             {| success := true; data := None; error := None |})
          "https://api.example.com" (Some "user-123") (Some "token")
          UseHistoryMutations.initial)
       (Create sample_create) (fresh, UseHistoryMutations.initial)).1.1
  = [QUERY_KEYS.histories "user-123"; QUERY_KEYS.historiesTotal].
Proof.
  refine (mutation_invalidates_list_and_total (T := History)
            (U := HistoryUpdateRequest) no_retry
            (createMockNetworkClient
               {| success := true; data := None; error := None |})
            "https://api.example.com" (Some "user-123") (Some "token")
            "user-123" (Create sample_create) fresh UseHistoryMutations.initial
            {| success := true; data := None; error := None |} _ _ _).
  - intros [] ? ? ?; reflexivity.
  - reflexivity.
  - discriminate.
Defined.

(** C4, as the claim has it, fails for the user id that is the empty string:
    it is not null, and the list key of that user is not invalidated. *)
Lemma mutation_invalidation_counterexample :
  let envelope : BaseResponse History :=
    {| success := true; data := None; error := None |} in
  let userId : option string := Some EmptyString in
  userId <> None
  /\ invalidated
       (perform
          (UseHistoryMutations.useHistoryMutations (U := HistoryUpdateRequest)
             no_retry (createMockNetworkClient envelope)
             "https://api.example.com" userId (Some "token")
             UseHistoryMutations.initial)
          (Create sample_create) (fresh, UseHistoryMutations.initial)).1.1
     = [QUERY_KEYS.historiesTotal].
Proof. split; [discriminate|reflexivity]. Qed.

(** C10: with a null user id, a mutation whose envelope has [success] set
    invalidates the key of the total and no other key; and whatever the user
    id is, the key of the total is the last one invalidated. *)
Theorem mutation_invalidates_total_without_user {T C U : Type}
    `{!Stringify C} `{!Stringify U} qc (nc : NetworkClient T)
    (baseUrl : string) (userId token : option string)
    (m : Mutation C U) (w : World T) (ms : UseHistoryMutations.Mutations)
    (envelope : BaseResponse T) :
  resolves_with nc envelope ->
  success envelope = true ->
  let hook := UseHistoryMutations.useHistoryMutations qc nc baseUrl in
  invalidated (perform (hook None token ms) m (w, ms)).1.1
  = invalidated w ++ [QUERY_KEYS.historiesTotal]
  /\ exists perUser,
       invalidated (perform (hook userId token ms) m (w, ms)).1.1
       = invalidated w ++ perUser ++ [QUERY_KEYS.historiesTotal].
Proof.
  intros Hnc Hs hook. subst hook. split.
  - destruct (perform_resolves qc nc baseUrl None token m w ms envelope Hnc)
      as [r ->].
    cbn [fst]. now rewrite Hs, invalidated_invalidate.
  - destruct (perform_resolves qc nc baseUrl userId token m w ms envelope Hnc)
      as [r ->].
    cbn [fst]. rewrite Hs, invalidated_invalidate. eexists. reflexivity.
Qed.

Lemma mutation_invalidates_total_without_user_witness :
  let hook :=
    UseHistoryMutations.useHistoryMutations (T := History)
      (C := HistoryCreateRequest) (U := HistoryUpdateRequest) no_retry
      (createMockNetworkClient
         {| success := true; data := None; error := None |})
      "https://api.example.com" in
  invalidated
    (perform (hook None None UseHistoryMutations.initial) (Delete "hist-456")
       (fresh, UseHistoryMutations.initial)).1.1
  = [QUERY_KEYS.historiesTotal]
  /\ exists perUser,
       invalidated
         (perform (hook (Some "user-123") None UseHistoryMutations.initial)
            (Delete "hist-456") (fresh, UseHistoryMutations.initial)).1.1
       = perUser ++ [QUERY_KEYS.historiesTotal].
Proof.
  refine (mutation_invalidates_total_without_user (T := History)
            (C := HistoryCreateRequest) (U := HistoryUpdateRequest) no_retry
            (createMockNetworkClient
               {| success := true; data := None; error := None |})
            "https://api.example.com" (Some "user-123") None
            (Delete "hist-456") fresh UseHistoryMutations.initial
            {| success := true; data := None; error := None |} _ _).
  - intros [] ? ? ?; reflexivity.
  - reflexivity.
Defined.

Lemma truthy_spec (x : option string) :
  Js.truthy x = true <-> exists s, x = Some s /\ s <> EmptyString.
Proof.
  destruct x as [[|c s]|]; cbn; split; try discriminate.
  - intros (s & [= <-] & Hs). contradiction.
  - intros _. eexists. split; [reflexivity|discriminate].
  - reflexivity.
  - intros (s & [=] & _).
Qed.

Lemma enabled_flag_spec (options : option HookOptions) :
  Js.nullish (options ≫= option_enabled) true = true
  <-> options ≫= option_enabled <> Some false.
Proof.
  destruct (options ≫= option_enabled) as [[|]|]; cbn; split;
    congruence.
Qed.

(** C6, as the code has it: the list query is disabled, and the hook makes
    no call to the transport, whenever the user id is null, the token is null
    or the caller's [enabled] is false; it is enabled exactly when the user id
    and the token are non-empty strings and the caller's [enabled] is not
    false. *)
Theorem list_query_enabled_iff {History : Type} v
    (nc : NetworkClient (list History)) (baseUrl : string)
    (userId token : option string) (options : option HookOptions) :
  let o := listOptions v nc baseUrl userId token options in
  (userId = None \/ token = None \/ options ≫= option_enabled = Some false ->
   enabled o = false
   /\ forall qc w,
        calls (useHistories v qc nc baseUrl userId token options w).1 = calls w)
  /\ (enabled o = true
      <-> (exists uid, userId = Some uid /\ uid <> EmptyString)
          /\ (exists tok, token = Some tok /\ tok <> EmptyString)
          /\ options ≫= option_enabled <> Some false).
Proof.
  intros o. subst o. split.
  - intros Hoff.
    assert (enabled (listOptions v nc baseUrl userId token options) = false)
      as Hen.
    { rewrite listOptions_enabled.
      destruct Hoff as [-> | [-> | ->]]; cbn;
        [ apply andb_false_intro1, andb_false_r
        | apply andb_false_r
        | reflexivity ]. }
    split; [exact Hen|]. intros qc w.
    now rewrite useHistories_eq, (useQuery_disabled _ _ _ Hen).
  - rewrite listOptions_enabled, !andb_true_iff, !truthy_spec,
      enabled_flag_spec. tauto.
Qed.

Lemma list_query_enabled_iff_witness :
  let nc := createMockNetworkClient (T := list History) (failure "unused") in
  (enabled (listOptions Literals nc "https://api.example.com"
              None (Some "token") None) = false
   /\ forall qc w,
        calls (useHistories Literals qc nc "https://api.example.com"
                 None (Some "token") None w).1 = calls w)
  /\ enabled (listOptions Defaults nc "https://api.example.com"
                (Some "user-123") (Some "token")
                (Some {| option_enabled := Some true |})) = true.
Proof.
  intros nc. split.
  - apply (list_query_enabled_iff Literals nc "https://api.example.com"
             None (Some "token") None). left. reflexivity.
  - apply (list_query_enabled_iff Defaults nc "https://api.example.com"
             (Some "user-123") (Some "token")
             (Some {| option_enabled := Some true |})).
    repeat split; try (eexists; split; [reflexivity|discriminate]).
    discriminate.
Defined.

(** C6, as the claim has it, fails for the empty string: neither the user id
    nor the token is null and [enabled] is not false, yet the query is
    disabled. *)
Lemma list_query_enabled_counterexample :
  let nc := createMockNetworkClient (T := list History) (failure "unused") in
  let userId : option string := Some EmptyString in
  let token : option string := Some "token" in
  let options : option HookOptions := None in
  userId <> None /\ token <> None /\ options ≫= option_enabled <> Some false
  /\ enabled (listOptions Literals nc "https://api.example.com"
                userId token options) = false
  /\ enabled (listOptions Defaults nc "https://api.example.com"
                userId token options) = false.
Proof. repeat split; discriminate. Qed.

Lemma list_enabled_true {History : Type} v (nc : NetworkClient (list History))
    baseUrl uid tok options :
  uid <> EmptyString -> tok <> EmptyString ->
  options ≫= option_enabled <> Some false ->
  enabled (listOptions v nc baseUrl (Some uid) (Some tok) options) = true.
Proof.
  intros Huid Htok Hflag.
  rewrite listOptions_enabled, !andb_true_iff, !truthy_spec, enabled_flag_spec.
  repeat split; eauto.
Qed.

(** Data that has just been stored is fresh for as long as the window lasts,
    and stale from then on. *)
Lemma is_fresh_after_store {T} key (d : T) gc stale dt (w : World T) :
  is_fresh key stale (later dt (store key d gc w)) = (dt <? stale).
Proof.
  unfold is_fresh, is_invalidated, later, store.
  cbn [cache invalidated now entry_updatedAt entry_invalidations].
  rewrite lookup_insert_eq.
  cbn [entry_updatedAt entry_invalidations].
  rewrite drop_all. cbn [existsb negb andb].
  destruct (Z.ltb_spec dt stale), (Z.ltb_spec (now w + dt) (now w + stale));
    (reflexivity || lia).
Qed.

(** C8: each query hook asks the engine for a staleness window of 5 minutes
    and a garbage-collection window of 30 minutes, in milliseconds, under the
    key of its entity.  When its fetch succeeds the data is in the cache
    under that key, stamped with the time and with the 30 minutes; for the
    next 5 minutes the hook shows that data without a call, and from then on
    it fetches again. *)
Theorem query_hooks_store_with_windows :
  (forall (History : Type) v (nc : NetworkClient (list History))
          baseUrl userId token options,
      staleTime (listOptions v nc baseUrl userId token options) = 5 * 60 * 1000
      /\ gcTime (listOptions v nc baseUrl userId token options) = 30 * 60 * 1000
      /\ queryKey (listOptions v nc baseUrl userId token options)
         = QUERY_KEYS.histories (Js.nullish userId EmptyString))
  /\ (forall (nt : NetworkClient HistoryTotalResponse.t) baseUrl options,
      staleTime (UseHistoriesTotal.queryOptions nt baseUrl options)
      = 5 * 60 * 1000
      /\ gcTime (UseHistoriesTotal.queryOptions nt baseUrl options)
         = 30 * 60 * 1000
      /\ queryKey (UseHistoriesTotal.queryOptions nt baseUrl options)
         = QUERY_KEYS.historiesTotal)
  /\ (forall (History : Type) v qc (nc : NetworkClient (list History))
             baseUrl uid tok options w envelope d,
      resolves_with nc envelope ->
      success envelope = true -> data envelope = Some d ->
      uid <> EmptyString -> tok <> EmptyString ->
      options ≫= option_enabled <> Some false ->
      is_fresh (QUERY_KEYS.histories uid) (5 * 60 * 1000) w = false ->
      let hook := useHistories v qc nc baseUrl (Some uid) (Some tok) options in
      let w' := (hook w).1 in
      cache w' !! QUERY_KEYS.histories uid
      = Some {| entry_data := d;
                entry_updatedAt := now w;
                entry_invalidations := length (invalidated w);
                entry_gcTime := 30 * 60 * 1000 |}
      /\ UseHistories.histories (hook w).2 = d
      /\ (forall dt, dt < 5 * 60 * 1000 ->
            hook (later dt w')
            = (later dt w',
               {| UseHistories.histories := d;
                  UseHistories.isLoading := false;
                  UseHistories.error := None |}))
      /\ (forall dt, 5 * 60 * 1000 <= dt ->
            calls (hook (later dt w')).1
            = calls w'
              ++ [{| verb := GET;
                     url := buildUrl baseUrl
                              ("/api/v1/users/" +:+ uid +:+ "/histories");
                     options := {| headers := createAuthHeaders tok;
                                   body := None |} |}]
            /\ entry_updatedAt
                 <$> cache (hook (later dt w')).1 !! QUERY_KEYS.histories uid
               = Some (now w + dt)))
  /\ (forall qc (nt : NetworkClient HistoryTotalResponse.t)
             baseUrl options w envelope d,
      resolves_with nt envelope ->
      success envelope = true -> data envelope = Some d ->
      options ≫= option_enabled <> Some false ->
      is_fresh QUERY_KEYS.historiesTotal (5 * 60 * 1000) w = false ->
      let hook := UseHistoriesTotal.useHistoriesTotal qc nt baseUrl options in
      let w' := (hook w).1 in
      cache w' !! QUERY_KEYS.historiesTotal
      = Some {| entry_data := d;
                entry_updatedAt := now w;
                entry_invalidations := length (invalidated w);
                entry_gcTime := 30 * 60 * 1000 |}
      /\ UseHistoriesTotal.total (hook w).2 = HistoryTotalResponse.total d
      /\ (forall dt, dt < 5 * 60 * 1000 ->
            hook (later dt w')
            = (later dt w',
               {| UseHistoriesTotal.total := HistoryTotalResponse.total d;
                  UseHistoriesTotal.isLoading := false;
                  UseHistoriesTotal.error := None |}))
      /\ (forall dt, 5 * 60 * 1000 <= dt ->
            calls (hook (later dt w')).1
            = calls w'
              ++ [{| verb := GET;
                     url := buildUrl baseUrl "/api/v1/histories/total";
                     options := {| headers := createHeaders; body := None |} |}]
            /\ entry_updatedAt
                 <$> cache (hook (later dt w')).1 !! QUERY_KEYS.historiesTotal
               = Some (now w + dt))).
Proof.
  split; [|split; [|split]].
  - intros History v nc baseUrl userId token options.
    destruct (listOptions_windows v nc baseUrl userId token options) as [-> ->].
    now rewrite listOptions_queryKey.
  - now intros nt baseUrl options.
  - intros History v qc nc baseUrl uid tok options w envelope d
      Hnc Hs Hd Huid Htok Hflag Hstale hook w'. subst hook w'.
    pose proof (list_enabled_true v nc baseUrl uid tok options Huid Htok Hflag)
      as Hen.
    pose proof (checked_success "Failed to fetch histories" _ _ Hs Hd) as Hchk.
    rewrite (useHistories_fulfilled v qc nc baseUrl (Some uid) (Some tok)
               options w envelope d Hnc Hen Hstale Hchk).
    cbn [fst snd UseHistories.histories Js.nullish].
    split; [apply lookup_insert_eq|]. split; [reflexivity|]. split.
    + intros dt Hdt.
      rewrite useHistories_served.
      * unfold cached. cbn [Js.nullish later store cache].
        now rewrite lookup_insert_eq.
      * cbn [Js.nullish]. rewrite is_fresh_after_store.
        now apply Z.ltb_lt.
    + intros dt Hdt.
      rewrite (useHistories_fulfilled v qc nc baseUrl (Some uid) (Some tok)
                 options _ envelope d Hnc Hen); [| |exact Hchk].
      * cbn [fst store later logged calls cache now Js.nullish].
        split; [reflexivity|]. now rewrite lookup_insert_eq.
      * cbn [Js.nullish]. rewrite is_fresh_after_store.
        now apply Z.ltb_ge.
  - intros qc nt baseUrl options w envelope d Hnt Hs Hd Hflag Hstale hook w'.
    subst hook w'.
    assert (enabled (UseHistoriesTotal.queryOptions nt baseUrl options) = true)
      as Hen by now apply enabled_flag_spec.
    pose proof (checked_success "Failed to fetch total" _ _ Hs Hd) as Hchk.
    rewrite (useHistoriesTotal_fulfilled qc nt baseUrl options w envelope d
               Hnt Hen Hstale Hchk).
    cbn [fst snd UseHistoriesTotal.total].
    split; [apply lookup_insert_eq|]. split; [reflexivity|]. split.
    + intros dt Hdt.
      rewrite useHistoriesTotal_served.
      * unfold cached. cbn [later store cache].
        now rewrite lookup_insert_eq.
      * rewrite is_fresh_after_store. now apply Z.ltb_lt.
    + intros dt Hdt.
      rewrite (useHistoriesTotal_fulfilled qc nt baseUrl options _ envelope d
                 Hnt Hen); [| |exact Hchk].
      * cbn [fst store later logged calls cache now].
        split; [reflexivity|]. now rewrite lookup_insert_eq.
      * rewrite is_fresh_after_store. now apply Z.ltb_ge.
Qed.

Lemma query_hooks_store_with_windows_witness :
  let list v :=
    useHistories v no_retry (createMockNetworkClient sample_histories)
      "https://api.example.com" (Some "user-123") (Some "token") None in
  let total :=
    UseHistoriesTotal.useHistoriesTotal no_retry
      (createMockNetworkClient sample_total) "https://api.example.com" None in
  let request :=
    {| verb := GET;
       url := buildUrl "https://api.example.com"
                ("/api/v1/users/" +:+ "user-123" +:+ "/histories");
       options := {| headers := createAuthHeaders "token"; body := None |} |} in
  (staleTime (listOptions Literals (createMockNetworkClient sample_histories)
                "https://api.example.com" (Some "user-123") (Some "token") None)
   = 300000
   /\ gcTime (listOptions Defaults (createMockNetworkClient sample_histories)
                "https://api.example.com" (Some "user-123") (Some "token") None)
      = 1800000)
  /\ (cache (list Literals fresh).1 !! QUERY_KEYS.histories "user-123"
      = Some {| entry_data := [{| history_id := "hist-456";
                                  history_datetime := "2024-01-01T00:00:00Z";
                                  history_value := 100 |}];
                entry_updatedAt := 0;
                entry_invalidations := 0;
                entry_gcTime := 1800000 |}
      /\ calls (list Literals (later 299999 (list Literals fresh).1)).1
         = calls (list Literals fresh).1
      /\ calls (list Literals (later 300000 (list Literals fresh).1)).1
         = calls (list Literals fresh).1 ++ [request])
  /\ (cache (list Defaults fresh).1 !! QUERY_KEYS.histories "user-123"
      = Some {| entry_data := [{| history_id := "hist-456";
                                  history_datetime := "2024-01-01T00:00:00Z";
                                  history_value := 100 |}];
                entry_updatedAt := 0;
                entry_invalidations := 0;
                entry_gcTime := 1800000 |}
      /\ calls (list Defaults (later 299999 (list Defaults fresh).1)).1
         = calls (list Defaults fresh).1
      /\ calls (list Defaults (later 300000 (list Defaults fresh).1)).1
         = calls (list Defaults fresh).1 ++ [request])
  /\ (cache (total fresh).1 !! QUERY_KEYS.historiesTotal
      = Some {| entry_data := {| HistoryTotalResponse.total := 42 |};
                entry_updatedAt := 0;
                entry_invalidations := 0;
                entry_gcTime := 1800000 |}
      /\ UseHistoriesTotal.total (total (later 299999 (total fresh).1)).2 = 42
      /\ calls (total (later 299999 (total fresh).1)).1 = calls (total fresh).1).
Proof.
  intros list total request.
  destruct query_hooks_store_with_windows as (Hopts & _ & Hlist & Htotal).
  assert (resolves_with (createMockNetworkClient sample_histories)
            sample_histories) as Hres by (intros [] ? ? ?; reflexivity).
  assert (resolves_with (createMockNetworkClient sample_total) sample_total)
    as Hrest by (intros [] ? ? ?; reflexivity).
  split; [|split; [|split]].
  - split.
    + exact (proj1 (Hopts History Literals
                      (createMockNetworkClient sample_histories)
                      "https://api.example.com" (Some "user-123")
                      (Some "token") None)).
    + exact (proj1 (proj2 (Hopts History Defaults
                             (createMockNetworkClient sample_histories)
                             "https://api.example.com" (Some "user-123")
                             (Some "token") None))).
  - destruct (Hlist History Literals no_retry
                (createMockNetworkClient sample_histories)
                "https://api.example.com" "user-123" "token" None fresh
                sample_histories
                [{| history_id := "hist-456";
                    history_datetime := "2024-01-01T00:00:00Z";
                    history_value := 100 |}] Hres)
      as (Hc & _ & Hin & Hout);
      try solve [reflexivity | discriminate].
    split; [exact Hc|]. split.
    + unfold list. now rewrite (Hin 299999 eq_refl).
    + exact (proj1 (Hout 300000 ltac:(discriminate))).
  - destruct (Hlist History Defaults no_retry
                (createMockNetworkClient sample_histories)
                "https://api.example.com" "user-123" "token" None fresh
                sample_histories
                [{| history_id := "hist-456";
                    history_datetime := "2024-01-01T00:00:00Z";
                    history_value := 100 |}] Hres)
      as (Hc & _ & Hin & Hout);
      try solve [reflexivity | discriminate].
    split; [exact Hc|]. split.
    + unfold list. now rewrite (Hin 299999 eq_refl).
    + exact (proj1 (Hout 300000 ltac:(discriminate))).
  - destruct (Htotal no_retry (createMockNetworkClient sample_total)
                "https://api.example.com" None fresh sample_total
                {| HistoryTotalResponse.total := 42 |} Hrest)
      as (Hc & _ & Hin & _);
      try solve [reflexivity | discriminate].
    split; [exact Hc|]. unfold total. now rewrite (Hin 299999 eq_refl).
Defined.

(** * Further properties of the helpers *)

(** ** [buildUrl] *)

Lemma replace_append_slash s :
  Js.replace_trailing_slash (s +:+ "/") = s.
Proof.
  induction s as [|c r IH]; [reflexivity|].
  destruct r as [|d r']; [reflexivity|].
  change (String c (String d r') +:+ "/")
    with (String c (String d (r' +:+ "/"))).
  rewrite replace_cons.
  change (String d (r' +:+ "/")) with (String d r' +:+ "/").
  now rewrite IH.
Qed.

(** X1: a base without a trailing slash is used as it is, and the same base
    with one trailing slash gives the same URL. *)
Theorem buildUrl_trailing_slash_insensitive (baseUrl path : string) :
  Js.endsWith baseUrl "/" = false ->
  buildUrl baseUrl path = baseUrl +:+ path
  /\ buildUrl (baseUrl +:+ "/") path = buildUrl baseUrl path.
Proof.
  intros H. unfold buildUrl.
  now rewrite replace_append_slash, (replace_without_slash _ H).
Qed.

Lemma buildUrl_trailing_slash_insensitive_witness :
  buildUrl "https://api.example.com" "/api/v1/histories/total"
  = "https://api.example.com" +:+ "/api/v1/histories/total"
  /\ buildUrl ("https://api.example.com" +:+ "/") "/api/v1/histories/total"
     = buildUrl "https://api.example.com" "/api/v1/histories/total".
Proof.
  exact (buildUrl_trailing_slash_insensitive
           "https://api.example.com" "/api/v1/histories/total" eq_refl).
Defined.

Lemma length_append (a b : string) :
  String.length (a +:+ b) = (String.length a + String.length b)%nat.
Proof.
  induction a as [|c a IH]; [reflexivity|].
  change (String.length (String c a +:+ b)) with (S (String.length (a +:+ b))).
  now rewrite IH.
Qed.

(** X2: the URL is the path, unchanged, after a prefix that is the base or
    the base without its last character, a slash; so [buildUrl] drops one
    character when the base ends in a slash and none otherwise, whatever the
    path is (a path without a leading slash gets none added). *)
Theorem buildUrl_shape (baseUrl path : string) :
  exists prefix,
    buildUrl baseUrl path = prefix +:+ path
    /\ (if Js.endsWith baseUrl "/"
        then baseUrl = prefix +:+ "/"
        else baseUrl = prefix)
    /\ String.length (buildUrl baseUrl path)
       = ((String.length baseUrl + String.length path)
          - (if Js.endsWith baseUrl "/" then 1 else 0))%nat.
Proof.
  exists (Js.replace_trailing_slash baseUrl). split; [reflexivity|].
  unfold buildUrl. rewrite length_append.
  destruct (Js.endsWith baseUrl "/") eqn:H.
  - pose proof (replace_with_slash _ H) as Heq. split; [exact Heq|].
    rewrite Heq at 2. rewrite length_append. cbn. lia.
  - rewrite (replace_without_slash _ H). split; [reflexivity|lia].
Qed.

(** ** [handleApiError] *)

Lemma or_else_not_empty (x : option string) (fallback : string) :
  fallback <> EmptyString -> Js.or_else x fallback <> EmptyString.
Proof. intros H. now destruct x as [[|c s]|]. Qed.

(** X3: for a response of the shape the function casts its argument to
    (no response, no [data], or a [data] whose [error] and [message] are
    strings or missing), [handleApiError] builds an [Error] whose message is
    "Failed to <operation>: " followed by a detail that is never empty. *)
Theorem handleApiError_message (response : option (option ErrorPayload))
    (operation : string) :
  exists detail,
    handleApiError response operation
    = Js.ErrorObject ("Failed to " +:+ operation +:+ ": " +:+ detail)
    /\ detail <> EmptyString
    /\ Js.message_of (Some (handleApiError response operation))
       = Some ("Failed to " +:+ operation +:+ ": " +:+ detail).
Proof.
  unfold handleApiError. eexists. split; [reflexivity|]. split; [|reflexivity].
  apply or_else_not_empty, or_else_not_empty. discriminate.
Qed.

(** X4: the detail is [data.error] when that is a non-empty string, whatever
    [data.message] is; an [error] that is missing or the empty string gives
    way to a non-empty [data.message]; and when neither is there, or there is
    no response or no [data], the detail is "Unknown error". *)
Theorem handleApiError_precedence (operation e m : string)
    (anyMessage emptyError emptyMessage : option string) :
  e <> EmptyString -> m <> EmptyString ->
  Js.truthy emptyError = false -> Js.truthy emptyMessage = false ->
  handleApiError
    (Some (Some {| ep_error := Some e; ep_message := anyMessage |})) operation
  = Js.ErrorObject ("Failed to " +:+ operation +:+ ": " +:+ e)
  /\ handleApiError
       (Some (Some {| ep_error := emptyError; ep_message := Some m |})) operation
     = Js.ErrorObject ("Failed to " +:+ operation +:+ ": " +:+ m)
  /\ handleApiError
       (Some (Some {| ep_error := emptyError; ep_message := emptyMessage |}))
       operation
     = Js.ErrorObject ("Failed to " +:+ operation +:+ ": Unknown error")
  /\ handleApiError (Some None) operation
     = Js.ErrorObject ("Failed to " +:+ operation +:+ ": Unknown error")
  /\ handleApiError None operation
     = Js.ErrorObject ("Failed to " +:+ operation +:+ ": Unknown error").
Proof.
  intros He Hm Hee Hem. unfold handleApiError. cbn.
  destruct e as [|c e]; [contradiction|].
  destruct m as [|d m]; [contradiction|].
  destruct emptyError as [[|? ?]|], emptyMessage as [[|? ?]|];
    cbn in Hee, Hem; try discriminate; repeat split.
Qed.

Lemma handleApiError_precedence_witness :
  handleApiError
    (Some (Some {| ep_error := Some "Not allowed";
                   ep_message := Some "Forbidden" |})) "create history"
  = Js.ErrorObject "Failed to create history: Not allowed"
  /\ handleApiError
       (Some (Some {| ep_error := Some EmptyString;
                      ep_message := Some "Forbidden" |})) "create history"
     = Js.ErrorObject "Failed to create history: Forbidden"
  /\ handleApiError
       (Some (Some {| ep_error := Some EmptyString; ep_message := None |}))
       "create history"
     = Js.ErrorObject "Failed to create history: Unknown error"
  /\ handleApiError (Some None) "create history"
     = Js.ErrorObject "Failed to create history: Unknown error"
  /\ handleApiError None "create history"
     = Js.ErrorObject "Failed to create history: Unknown error".
Proof.
  refine (handleApiError_precedence "create history" "Not allowed" "Forbidden"
            (Some "Forbidden") (Some EmptyString) None _ _ _ _);
    solve [discriminate | reflexivity].
Defined.

(** ** [QUERY_KEYS] *)

(** X5: different users have different list keys and different user keys,
    and a user key is never a list key or the key of the total; but the list
    key of a user is the key of the total exactly when the user id is
    "total", and then the list hook and the total hook ask for the same
    key. *)
Theorem query_keys_collide_only_for_total :
  (forall u1 u2, QUERY_KEYS.histories u1 = QUERY_KEYS.histories u2 <-> u1 = u2)
  /\ (forall u1 u2, QUERY_KEYS.user u1 = QUERY_KEYS.user u2 <-> u1 = u2)
  /\ (forall u1 u2, QUERY_KEYS.user u1 <> QUERY_KEYS.histories u2)
  /\ (forall u, QUERY_KEYS.user u <> QUERY_KEYS.historiesTotal)
  /\ (forall u, QUERY_KEYS.histories u = QUERY_KEYS.historiesTotal <-> u = "total")
  /\ (forall (History : Type) v (nc : NetworkClient (list History))
             (nt : NetworkClient HistoryTotalResponse.t)
             baseUrl baseUrl' u token options options',
         queryKey (listOptions v nc baseUrl (Some u) token options)
         = queryKey (UseHistoriesTotal.queryOptions nt baseUrl' options')
         <-> u = "total").
Proof.
  unfold QUERY_KEYS.histories, QUERY_KEYS.user, QUERY_KEYS.historiesTotal.
  split; [|split; [|split; [|split; [|split]]]].
  - intros u1 u2. split; congruence.
  - intros u1 u2. split; congruence.
  - intros u1 u2. discriminate.
  - intros u. discriminate.
  - intros u. split; congruence.
  - intros History v nc nt baseUrl baseUrl' u token options options'.
    rewrite listOptions_queryKey. cbn.
    unfold QUERY_KEYS.histories, QUERY_KEYS.historiesTotal. split; congruence.
Qed.

(** * Further properties of the client *)

Lemma buildUrl_clean (baseUrl path : string) :
  Js.endsWith baseUrl "/" = false -> buildUrl baseUrl path = baseUrl +:+ path.
Proof. intros H. unfold buildUrl. now rewrite (replace_without_slash _ H). Qed.

Lemma buildUrl_append_slash (baseUrl path : string) :
  buildUrl (baseUrl +:+ "/") path = baseUrl +:+ path.
Proof. unfold buildUrl. now rewrite replace_append_slash. Qed.

Section ClientRequests.
Context {T C U : Type} `{!Stringify C} `{!Stringify U}.
Implicit Types (nc : NetworkClient T) (c : Call C U) (w : World T).

Lemma invoke_world nc baseUrl c w :
  (invoke (StarterClient.new baseUrl nc) c w).1
  = logged (request_of (StarterClient.new baseUrl nc) c) w.
Proof. now rewrite invoke_eq. Qed.

Lemma request_of_append_slash nc baseUrl c :
  Js.endsWith baseUrl "/" = false ->
  request_of (StarterClient.new (baseUrl +:+ "/") nc) c
  = request_of (StarterClient.new baseUrl nc) c.
Proof.
  intros H. destruct c; unfold request_of; cbn [StarterClient.baseUrl];
    now rewrite buildUrl_append_slash, (buildUrl_clean _ _ H).
Qed.

(** X6: the request of each method, for a base without a trailing slash:
    the verb and the URL of the interface table, the headers with the bearer
    token (none for the total), and a body, the JSON text of the data, for
    [createHistory] and [updateHistory] only. *)
Theorem client_request_table nc (baseUrl : string) w :
  Js.endsWith baseUrl "/" = false ->
  let client := StarterClient.new baseUrl nc in
  (forall userId token,
      (StarterClient.getUser client userId token w).1
      = logged {| verb := GET;
                  url := baseUrl +:+ "/api/v1/users/" +:+ userId;
                  options := {| headers := createAuthHeaders token;
                                body := None |} |} w)
  /\ (forall userId token,
      (StarterClient.getHistories client userId token w).1
      = logged {| verb := GET;
                  url := baseUrl +:+ "/api/v1/users/" +:+ userId +:+ "/histories";
                  options := {| headers := createAuthHeaders token;
                                body := None |} |} w)
  /\ (forall userId (data : C) token,
      (StarterClient.createHistory client userId data token w).1
      = logged {| verb := POST;
                  url := baseUrl +:+ "/api/v1/users/" +:+ userId +:+ "/histories";
                  options := {| headers := createAuthHeaders token;
                                body := Some (JSON_stringify data) |} |} w)
  /\ (forall userId historyId (data : U) token,
      (StarterClient.updateHistory client userId historyId data token w).1
      = logged {| verb := PUT;
                  url := baseUrl +:+ "/api/v1/users/" +:+ userId
                         +:+ "/histories/" +:+ historyId;
                  options := {| headers := createAuthHeaders token;
                                body := Some (JSON_stringify data) |} |} w)
  /\ (forall userId historyId token,
      (StarterClient.deleteHistory client userId historyId token w).1
      = logged {| verb := DELETE;
                  url := baseUrl +:+ "/api/v1/users/" +:+ userId
                         +:+ "/histories/" +:+ historyId;
                  options := {| headers := createAuthHeaders token;
                                body := None |} |} w)
  /\ (StarterClient.getHistoriesTotal client w).1
     = logged {| verb := GET;
                 url := baseUrl +:+ "/api/v1/histories/total";
                 options := {| headers := createHeaders; body := None |} |} w.
Proof.
  intros H client. subst client.
  split; [|split; [|split; [|split; [|split]]]].
  - intros userId token. rewrite <- (buildUrl_clean _ _ H).
    exact (invoke_world nc baseUrl (GetUser userId token) w).
  - intros userId token. rewrite <- (buildUrl_clean _ _ H).
    exact (invoke_world nc baseUrl (GetHistories userId token) w).
  - intros userId d token. rewrite <- (buildUrl_clean _ _ H).
    exact (invoke_world nc baseUrl (CreateHistory userId d token) w).
  - intros userId historyId d token. rewrite <- (buildUrl_clean _ _ H).
    exact (invoke_world nc baseUrl (UpdateHistory userId historyId d token) w).
  - intros userId historyId token. rewrite <- (buildUrl_clean _ _ H).
    exact (invoke_world nc baseUrl (DeleteHistory userId historyId token) w).
  - rewrite <- (buildUrl_clean _ _ H).
    exact (invoke_world nc baseUrl GetHistoriesTotal w).
Qed.

(** X7: a client made with a base that has one trailing slash behaves, for
    every method and every transport, as the client made with the base
    without it: the same request goes out and the same result comes back. *)
Theorem client_ignores_trailing_slash nc (baseUrl : string) c w :
  Js.endsWith baseUrl "/" = false ->
  invoke (StarterClient.new (baseUrl +:+ "/") nc) c w
  = invoke (StarterClient.new baseUrl nc) c w.
Proof.
  intros H. rewrite !invoke_eq, (request_of_append_slash _ _ _ H).
  reflexivity.
Qed.

End ClientRequests.

Lemma client_request_table_witness :
  let client :=
    StarterClient.new "https://api.example.com"
      (createMockNetworkClient userData) in
  calls (StarterClient.updateHistory client "user-123" "hist-456"
           {| update_datetime := None; update_value := Some 200 |}
           "token-abc" fresh).1
  = [{| verb := PUT;
        url := "https://api.example.com/api/v1/users/user-123/histories/hist-456";
        options := {| headers := createAuthHeaders "token-abc";
                      body := Some (JSON_stringify
                                      {| update_datetime := None;
                                         update_value := Some 200 |}) |} |}].
Proof.
  destruct (client_request_table (C := HistoryCreateRequest)
              (U := HistoryUpdateRequest)
              (createMockNetworkClient userData) "https://api.example.com"
              fresh eq_refl) as (_ & _ & _ & Hput & _).
  intros client. subst client. now rewrite Hput.
Defined.

Lemma client_ignores_trailing_slash_witness :
  invoke (C := HistoryCreateRequest) (U := HistoryUpdateRequest)
    (StarterClient.new ("https://api.example.com" +:+ "/")
       (createMockNetworkClient userData))
    GetHistoriesTotal fresh
  = invoke
      (StarterClient.new "https://api.example.com"
         (createMockNetworkClient userData))
      GetHistoriesTotal fresh.
Proof.
  exact (client_ignores_trailing_slash (createMockNetworkClient userData)
           "https://api.example.com" GetHistoriesTotal fresh eq_refl).
Defined.

(** * Further properties of the hooks *)

Section Attempts.
Context {T : Type}.
Implicit Types (w : World T).

(** A function that sends the request [r] and does nothing else to the
    world sends it once per try, at least once and at most once more than
    the number of retries. *)
Lemma attempt_calls {A} (f : Async T A) (r : Request) :
  (forall w, (f w).1 = logged r w) ->
  forall n w,
    exists k, (k <= n)%nat
      /\ calls (attempt n f w).1 = calls w ++ replicate (S k) r
      /\ invalidated (attempt n f w).1 = invalidated w
      /\ cache (attempt n f w).1 = cache w.
Proof.
  intros Hf. induction n as [|n IH]; intros w; pose proof (Hf w) as Hw;
    cbn [attempt]; destruct (f w) as [w1 [a|e]]; cbn [fst] in Hw; subst w1.
  - exists 0%nat. now repeat split.
  - exists 0%nat. now repeat split.
  - exists 0%nat. repeat split. lia.
  - destruct (IH (logged r w)) as (k & Hk & Hc & Hi & Hca).
    exists (S k). split; [lia|]. rewrite Hc, Hi, Hca. cbn [logged calls invalidated cache].
    now rewrite <- app_assoc.
Qed.

Lemma attempt_first_try {A} (f : Async T A) (r : Request) n w a :
  (f w).1 = logged r w -> (f w).2 = Fulfilled a ->
  attempt n f w = (logged r w, Fulfilled a).
Proof.
  intros H1 H2. apply attempt_fulfilled.
  destruct (f w) as [w1 s]. cbn in H1, H2. now subst.
Qed.

End Attempts.

Section QueryFunctions.
Context {History : Type}.
Implicit Types (nc : NetworkClient (list History))
  (nt : NetworkClient HistoryTotalResponse.t) (userId token : option string).

Lemma historiesQueryFn_eq nc baseUrl userId token w :
  UseHistories.historiesQueryFn (StarterClient.new baseUrl nc) userId token w
  = (logged (historiesRequest baseUrl userId token) w,
     match dispatch nc GET (calls w)
             (url (historiesRequest baseUrl userId token))
             (options (historiesRequest baseUrl userId token)) with
     | Fulfilled response =>
         checked "Failed to fetch histories" (response_data response)
     | Rejected e => Rejected e
     end).
Proof.
  unfold UseHistories.historiesQueryFn, StarterClient.getHistories, bind, send,
    ret, throw, checked, historiesRequest.
  cbn [StarterClient.baseUrl StarterClient.networkClient url options].
  destruct (dispatch nc GET _ _ _) as [response|e]; [|reflexivity].
  now destruct (success (response_data response)),
    (data (response_data response)).
Qed.

Lemma totalQueryFn_eq nt baseUrl w :
  UseHistoriesTotal.totalQueryFn (StarterClient.new baseUrl nt) w
  = (logged (totalRequest baseUrl) w,
     match dispatch nt GET (calls w) (url (totalRequest baseUrl))
             (options (totalRequest baseUrl)) with
     | Fulfilled response =>
         checked "Failed to fetch total" (response_data response)
     | Rejected e => Rejected e
     end).
Proof.
  unfold UseHistoriesTotal.totalQueryFn, StarterClient.getHistoriesTotal, bind,
    send, ret, throw, checked, totalRequest.
  cbn [StarterClient.baseUrl StarterClient.networkClient url options].
  destruct (dispatch nt GET _ _ _) as [response|e]; [|reflexivity].
  now destruct (success (response_data response)),
    (data (response_data response)).
Qed.

End QueryFunctions.

(** ** The query hooks against any transport *)

Section QueryHooksAnyTransport.
Context {History : Type}.
Implicit Types (v : Variant) (qc : QueryClient)
  (nc : NetworkClient (list History)) (nt : NetworkClient HistoryTotalResponse.t)
  (userId token : option string) (options : option HookOptions).

Lemma useQuery_frame {T} qc (o : @QueryOptions T) (r : Request) (w : World T) :
  (forall w, (queryFn o w).1 = logged r w) ->
  invalidated (useQuery qc o w).1 = invalidated w
  /\ (forall k, k <> queryKey o ->
                cache (useQuery qc o w).1 !! k = cache w !! k)
  /\ exists n, (n <= S (query_retry qc))%nat
       /\ calls (useQuery qc o w).1 = calls w ++ replicate n r
       /\ (enabled o = false -> n = 0%nat).
Proof.
  intros Hf. unfold useQuery.
  destruct (enabled o && negb (is_fresh (queryKey o) (staleTime o) w)) eqn:Hgo.
  - apply andb_true_iff in Hgo as [Hen _].
    destruct (attempt_calls _ _ Hf (query_retry qc) w) as (k & Hk & Hc & Hi & Hca).
    destruct (attempt _ _ w) as [w1 [d|e]]; cbn [fst] in *;
      cbn [store calls invalidated cache].
    + split; [exact Hi|]. split.
      * intros key Hkey. rewrite lookup_insert_ne by congruence. now rewrite Hca.
      * exists (S k). repeat split; try lia; try congruence.
    + split; [exact Hi|]. split.
      * intros key _. now rewrite Hca.
      * exists (S k). repeat split; try lia; try congruence.
  - cbn [fst]. split; [reflexivity|]. split; [reflexivity|].
    exists 0%nat. repeat split; try lia.
    cbn. now rewrite app_nil_r.
Qed.



(** X9: a fetch that succeeds costs one call, and data that is fresh costs
    none.  When the cache holds nothing fresh for the key, the list hook sends
    one GET for the histories of the user with the bearer token, the total
    hook one GET for the total without [Authorization]; each shows the data
    with no error and invalidates nothing.  When the cache holds fresh data
    for the key the hook calls nothing and shows that data. *)
Theorem query_hooks_fetch_once :
  (forall v qc nc baseUrl uid tok options w envelope d,
      resolves_with nc envelope ->
      success envelope = true -> data envelope = Some d ->
      uid <> EmptyString -> tok <> EmptyString ->
      options ≫= option_enabled <> Some false ->
      is_fresh (QUERY_KEYS.histories uid) (5 * 60 * 1000) w = false ->
      let result :=
        useHistories v qc nc baseUrl (Some uid) (Some tok) options w in
      calls result.1
      = calls w
        ++ [{| verb := GET;
               url := buildUrl baseUrl
                        ("/api/v1/users/" +:+ uid +:+ "/histories");
               options := {| headers := createAuthHeaders tok;
                             body := None |} |}]
      /\ invalidated result.1 = invalidated w
      /\ UseHistories.histories result.2 = d
      /\ UseHistories.error result.2 = None)
  /\ (forall qc nt baseUrl options w envelope d,
      resolves_with nt envelope ->
      success envelope = true -> data envelope = Some d ->
      options ≫= option_enabled <> Some false ->
      is_fresh QUERY_KEYS.historiesTotal (5 * 60 * 1000) w = false ->
      let result := UseHistoriesTotal.useHistoriesTotal qc nt baseUrl options w in
      calls result.1
      = calls w
        ++ [{| verb := GET;
               url := buildUrl baseUrl "/api/v1/histories/total";
               options := {| headers := createHeaders; body := None |} |}]
      /\ invalidated result.1 = invalidated w
      /\ UseHistoriesTotal.total result.2 = HistoryTotalResponse.total d
      /\ UseHistoriesTotal.error result.2 = None)
  /\ (forall v qc nc baseUrl uid token options w entry,
      cache w !! QUERY_KEYS.histories uid = Some entry ->
      is_fresh (QUERY_KEYS.histories uid) (5 * 60 * 1000) w = true ->
      let result := useHistories v qc nc baseUrl (Some uid) token options w in
      result.1 = w
      /\ UseHistories.histories result.2 = entry_data entry
      /\ UseHistories.error result.2 = None)
  /\ (forall qc nt baseUrl options w entry,
      cache w !! QUERY_KEYS.historiesTotal = Some entry ->
      is_fresh QUERY_KEYS.historiesTotal (5 * 60 * 1000) w = true ->
      let result := UseHistoriesTotal.useHistoriesTotal qc nt baseUrl options w in
      result.1 = w
      /\ UseHistoriesTotal.total result.2
         = HistoryTotalResponse.total (entry_data entry)
      /\ UseHistoriesTotal.error result.2 = None).
Proof.
  split; [|split; [|split]].
  - intros v qc nc baseUrl uid tok options w envelope d
      Hnc Hs Hd Huid Htok Hflag Hstale result. subst result.
    rewrite (useHistories_fulfilled v qc nc baseUrl (Some uid) (Some tok)
               options w envelope d Hnc
               (list_enabled_true v nc baseUrl uid tok options Huid Htok Hflag)
               Hstale (checked_success _ _ _ Hs Hd)).
    now repeat split.
  - intros qc nt baseUrl options w envelope d Hnt Hs Hd Hflag Hstale result.
    subst result.
    rewrite (useHistoriesTotal_fulfilled qc nt baseUrl options w envelope d Hnt);
      [now repeat split| |exact Hstale|exact (checked_success _ _ _ Hs Hd)].
    now apply enabled_flag_spec.
  - intros v qc nc baseUrl uid token options w entry Hentry Hfresh result.
    subst result.
    rewrite (useHistories_served v qc nc baseUrl (Some uid) token options w Hfresh).
    unfold cached. cbn [Js.nullish fst snd]. rewrite Hentry. now repeat split.
  - intros qc nt baseUrl options w entry Hentry Hfresh result. subst result.
    rewrite (useHistoriesTotal_served qc nt baseUrl options w Hfresh).
    unfold cached. cbn [fst snd]. rewrite Hentry. now repeat split.
Qed.

(** X10: when the cache holds nothing fresh for the key and the transport
    rejects, the hook's error is the message of the rejection if that is an
    [Error] and null if it is any other value; the hook shows what the cache
    held for its key, the empty list or 0 when nothing, and the cache is left
    as it was. *)
Theorem query_hooks_on_rejection :
  (forall v qc nc baseUrl uid tok options w e,
      rejects_with nc e ->
      uid <> EmptyString -> tok <> EmptyString ->
      options ≫= option_enabled <> Some false ->
      is_fresh (QUERY_KEYS.histories uid) (5 * 60 * 1000) w = false ->
      let result :=
        useHistories v qc nc baseUrl (Some uid) (Some tok) options w in
      UseHistories.error result.2 = Js.message_of (Some e)
      /\ UseHistories.histories result.2
         = Js.nullish (cached (QUERY_KEYS.histories uid) w) []
      /\ cache result.1 = cache w)
  /\ (forall qc nt baseUrl options w e,
      rejects_with nt e ->
      options ≫= option_enabled <> Some false ->
      is_fresh QUERY_KEYS.historiesTotal (5 * 60 * 1000) w = false ->
      let result := UseHistoriesTotal.useHistoriesTotal qc nt baseUrl options w in
      UseHistoriesTotal.error result.2 = Js.message_of (Some e)
      /\ UseHistoriesTotal.total result.2
         = Js.nullish
             (HistoryTotalResponse.total <$> cached QUERY_KEYS.historiesTotal w) 0
      /\ cache result.1 = cache w).
Proof.
  split.
  - intros v qc nc baseUrl uid tok options w e Hnc Huid Htok Hflag Hstale result.
    subst result. rewrite useHistories_eq.
    pose proof (list_enabled_true v nc baseUrl uid tok options Huid Htok Hflag)
      as Hen.
    rewrite <- (listOptions_fresh v nc baseUrl (Some uid) (Some tok) options)
      in Hstale.
    destruct (useQuery_rejected qc _ w e Hen Hstale) as (Hq & _ & Hca).
    { intros w0. rewrite listOptions_queryFn, historiesQueryFn_eq, Hnc.
      now cbn. }
    destruct (useQuery _ _ w) as [w' q]. cbn [fst snd] in *. subst q.
    cbn. now rewrite listOptions_queryKey.
  - intros qc nt baseUrl options w e Hnt Hflag Hstale result. subst result.
    unfold UseHistoriesTotal.useHistoriesTotal.
    assert (enabled (UseHistoriesTotal.queryOptions nt baseUrl options) = true)
      as Hen by now apply enabled_flag_spec.
    destruct (useQuery_rejected qc _ w e Hen Hstale) as (Hq & _ & Hca).
    { intros w0. cbn [queryFn UseHistoriesTotal.queryOptions].
      rewrite totalQueryFn_eq, Hnt. now cbn. }
    destruct (useQuery _ _ w) as [w' q]. cbn [fst snd] in *. subst q.
    now cbn.
Qed.

(** X14: whatever the transport does, a query hook invalidates
    nothing, changes the cache at no key but its own, and sends nothing but
    its one request, at most once more than the engine retries and not at
    all when the query is disabled. *)
Theorem query_hooks_frame :
  (forall v qc nc baseUrl userId token options w,
      let result := useHistories v qc nc baseUrl userId token options w in
      invalidated result.1 = invalidated w
      /\ (forall k, k <> QUERY_KEYS.histories (Js.nullish userId EmptyString) ->
                    cache result.1 !! k = cache w !! k)
      /\ exists n, (n <= S (query_retry qc))%nat
           /\ calls result.1
              = calls w ++ replicate n (historiesRequest baseUrl userId token))
  /\ (forall qc nt baseUrl options w,
      let result := UseHistoriesTotal.useHistoriesTotal qc nt baseUrl options w in
      invalidated result.1 = invalidated w
      /\ (forall k, k <> QUERY_KEYS.historiesTotal ->
                    cache result.1 !! k = cache w !! k)
      /\ exists n, (n <= S (query_retry qc))%nat
           /\ calls result.1 = calls w ++ replicate n (totalRequest baseUrl)).
Proof.
  split.
  - intros v qc nc baseUrl userId token options w result. subst result.
    rewrite useHistories_eq.
    destruct (useQuery_frame qc (listOptions v nc baseUrl userId token options)
                (historiesRequest baseUrl userId token) w)
      as (Hi & Hca & n & Hn & Hc & _).
    { intros w0. now rewrite listOptions_queryFn, historiesQueryFn_eq. }
    rewrite listOptions_queryKey in Hca.
    destruct (useQuery _ _ w) as [w' q]. cbn [fst] in *. eauto.
  - intros qc nt baseUrl options w result. subst result.
    unfold UseHistoriesTotal.useHistoriesTotal.
    destruct (useQuery_frame qc (UseHistoriesTotal.queryOptions nt baseUrl options)
                (totalRequest baseUrl) w)
      as (Hi & Hca & n & Hn & Hc & _).
    { intros w0. cbn [queryFn UseHistoriesTotal.queryOptions].
      now rewrite totalQueryFn_eq. }
    destruct (useQuery _ _ w) as [w' q]. cbn [fst] in *. eauto.
Qed.

End QueryHooksAnyTransport.

Lemma query_hooks_fetch_once_witness :
  let list :=
    useHistories Literals no_retry (createMockNetworkClient sample_histories)
      "https://api.example.com/" (Some "user-123") (Some "token-abc") None in
  let total :=
    UseHistoriesTotal.useHistoriesTotal no_retry
      (createMockNetworkClient sample_total) "https://api.example.com/" None in
  (calls (list fresh).1
   = [{| verb := GET;
         url := "https://api.example.com/api/v1/users/user-123/histories";
         options := {| headers := createAuthHeaders "token-abc";
                       body := None |} |}]
   /\ UseHistories.error (list fresh).2 = None)
  /\ (calls (total fresh).1
      = [{| verb := GET;
            url := "https://api.example.com/api/v1/histories/total";
            options := {| headers := createHeaders; body := None |} |}]
      /\ UseHistoriesTotal.total (total fresh).2 = 42)
  /\ (list (later 1000 (list fresh).1)).1 = later 1000 (list fresh).1
  /\ ((total (later 1000 (total fresh).1)).1 = later 1000 (total fresh).1
      /\ UseHistoriesTotal.total (total (later 1000 (total fresh).1)).2 = 42).
Proof.
  intros list total.
  destruct (query_hooks_fetch_once (History := History))
    as (Hlist & Htotal & Hlist' & Htotal').
  split; [|split; [|split]].
  - destruct (Hlist Literals no_retry (createMockNetworkClient sample_histories)
                "https://api.example.com/" "user-123" "token-abc" None fresh
                sample_histories
                [{| history_id := "hist-456";
                    history_datetime := "2024-01-01T00:00:00Z";
                    history_value := 100 |}])
      as (Hc & _ & _ & He);
      try solve [reflexivity | discriminate | intros [] ? ? ?; reflexivity].
    split; [exact Hc|exact He].
  - destruct (Htotal no_retry (createMockNetworkClient sample_total)
                "https://api.example.com/" None fresh sample_total
                {| HistoryTotalResponse.total := 42 |})
      as (Hc & _ & Ht & _);
      try solve [reflexivity | discriminate | intros [] ? ? ?; reflexivity].
    split; [exact Hc|exact Ht].
  - refine (proj1 (Hlist' Literals no_retry
                     (createMockNetworkClient sample_histories)
                     "https://api.example.com/" "user-123" (Some "token-abc")
                     None (later 1000 (list fresh).1) _ _ _));
      reflexivity.
  - destruct (Htotal' no_retry (createMockNetworkClient sample_total)
                "https://api.example.com/" None (later 1000 (total fresh).1)
                {| entry_data := {| HistoryTotalResponse.total := 42 |};
                   entry_updatedAt := 0;
                   entry_invalidations := 0;
                   entry_gcTime := 1800000 |})
      as (Hw & Ht & _); try reflexivity.
    split; [exact Hw|exact Ht].
Defined.

Lemma query_hooks_on_rejection_witness :
  (let result :=
     useHistories (History := History) Defaults no_retry
       (createRejectingNetworkClient (Js.ErrorObject "Network Error"))
       "https://api.example.com" (Some "user-123") (Some "token") None fresh in
   UseHistories.error result.2 = Some "Network Error"
   /\ UseHistories.histories result.2 = [])
  /\ (let result :=
        UseHistoriesTotal.useHistoriesTotal no_retry
          (createRejectingNetworkClient (Js.NonError "timeout"))
          "https://api.example.com" None fresh in
      UseHistoriesTotal.error result.2 = None
      /\ UseHistoriesTotal.total result.2 = 0).
Proof.
  destruct (query_hooks_on_rejection (History := History)) as [Hlist Htotal].
  split.
  - destruct (Hlist Defaults no_retry
                (createRejectingNetworkClient (Js.ErrorObject "Network Error"))
                "https://api.example.com" "user-123" "token" None
                fresh (Js.ErrorObject "Network Error")) as (He & Hh & _);
      try solve [reflexivity | discriminate | intros [] ? ? ?; reflexivity].
    split; [exact He|exact Hh].
  - destruct (Htotal no_retry
                (createRejectingNetworkClient (Js.NonError "timeout"))
                "https://api.example.com" None fresh (Js.NonError "timeout"))
      as (He & Ht & _);
      try solve [reflexivity | discriminate | intros [] ? ? ?; reflexivity].
    split; [exact He|exact Ht].
Defined.

(** ** The mutation hook against any transport *)

Section MutationsAnyTransport.
Context {T C U : Type} `{!Stringify C} `{!Stringify U}.
Implicit Types (w : World T) (ms : UseHistoryMutations.Mutations)
  (m : Mutation C U) (userId token : option string) (qc : QueryClient)
  (nc : NetworkClient T).

(** A function of the hook is the client's method under the engine's
    [mutateAsync]: tried, retried when rejected, followed on success by the
    invalidation that [success] gates. *)
Lemma perform_eq qc nc baseUrl userId token m w ms :
  perform (UseHistoryMutations.useHistoryMutations qc nc baseUrl userId token ms)
    m (w, ms)
  = let '(w1, s) :=
      attempt (mutation_retry qc)
        (invoke (StarterClient.new baseUrl nc) (call_of userId token m)) w in
    (match s with
     | Fulfilled response =>
         if success response
         then UseHistoryMutations.invalidate userId w1
         else w1
     | Rejected _ => w1
     end,
     settled_in m (settled_state s) ms,
     s).
Proof.
  destruct m as [d|h d|h]; cbn; unfold mutateAsync; cbn;
    match goal with
    | |- context [attempt ?n ?f ?x] => destruct (attempt n f x) as [w1 [r|e]]
    end; reflexivity.
Qed.

Lemma invoke_rejects nc baseUrl (c : Call C U) e w :
  rejects_with nc e ->
  (invoke (StarterClient.new baseUrl nc) c w).2 = Rejected e
  /\ invalidated (invoke (StarterClient.new baseUrl nc) c w).1 = invalidated w
  /\ cache (invoke (StarterClient.new baseUrl nc) c w).1 = cache w.
Proof. intros H. rewrite invoke_eq. cbn. now rewrite H. Qed.

(** X11: when the transport rejects, the function of the hook is rejected
    with the same value, nothing is invalidated, and the hook's error is the
    message of the rejection if that is an [Error] and null otherwise;
    [clearError] then sets the error back to null. *)
Theorem mutation_on_rejection qc nc (baseUrl : string) userId token m w e :
  rejects_with nc e ->
  let hook := UseHistoryMutations.useHistoryMutations qc nc baseUrl userId token in
  let '(w', ms', settled) :=
    perform (hook UseHistoryMutations.initial) m
      (w, UseHistoryMutations.initial) in
  settled = Rejected e
  /\ UseHistoryMutations.error (hook ms') = Js.message_of (Some e)
  /\ invalidated w' = invalidated w
  /\ cache w' = cache w
  /\ UseHistoryMutations.error
       (hook (UseHistoryMutations.clearError (hook ms') ms')) = None.
Proof.
  intros Hnc hook. subst hook. rewrite perform_eq.
  destruct (attempt_rejected _ e
              (fun w0 => invoke_rejects nc baseUrl (call_of userId token m) e w0 Hnc)
              (mutation_retry qc) w) as (Hs & Hi & Hca).
  destruct (attempt _ _ w) as [w1 s]. cbn [fst snd] in *. subst s.
  repeat split; try assumption.
  destruct m, e; reflexivity.
Qed.

(** X13: the functions of the hook do not wait for an identity.  With a null
    user id and a null token each of them still calls the transport, at the
    URL of the user "null" and with the credential "Bearer null", at least
    once and at most once more than the engine retries. *)
Theorem mutation_without_identity qc nc (baseUrl : string) m w ms :
  let hook := UseHistoryMutations.useHistoryMutations qc nc baseUrl None None in
  exists k, (k <= mutation_retry qc)%nat
    /\ calls (perform (hook ms) m (w, ms)).1.1
       = calls w
         ++ replicate (S k)
              match m with
              | Create data =>
                  {| verb := POST;
                     url := buildUrl baseUrl "/api/v1/users/null/histories";
                     options := {| headers := createAuthHeaders "null";
                                   body := Some (JSON_stringify data) |} |}
              | Update historyId data =>
                  {| verb := PUT;
                     url := buildUrl baseUrl
                              ("/api/v1/users/null/histories/" +:+ historyId);
                     options := {| headers := createAuthHeaders "null";
                                   body := Some (JSON_stringify data) |} |}
              | Delete historyId =>
                  {| verb := DELETE;
                     url := buildUrl baseUrl
                              ("/api/v1/users/null/histories/" +:+ historyId);
                     options := {| headers := createAuthHeaders "null";
                                   body := None |} |}
              end.
Proof.
  intros hook. subst hook. rewrite perform_eq.
  destruct (attempt_calls _ _
              (fun w0 => invoke_world nc baseUrl (call_of None None m) w0)
              (mutation_retry qc) w) as (k & Hk & Hc & _).
  destruct (attempt _ _ w) as [w1 s]. cbn [fst snd] in *.
  exists k. split; [exact Hk|].
  assert (calls (match s with
                 | Fulfilled response =>
                     if success response
                     then UseHistoryMutations.invalidate None w1
                     else w1
                 | Rejected _ => w1
                 end) = calls w1) as ->.
  { destruct s as [response|e0]; [|reflexivity].
    now destruct (success response). }
  rewrite Hc. now destruct m.
Qed.

(** X15: whatever the transport does, a function of the hook
    writes nothing to the cache, and what it invalidates is nothing, or the
    list key of the user (for a non-empty user id) followed by the key of the
    total. *)
Theorem mutation_frame qc nc (baseUrl : string) userId token m w ms :
  let hook := UseHistoryMutations.useHistoryMutations qc nc baseUrl userId token in
  let w' := (perform (hook ms) m (w, ms)).1.1 in
  cache w' = cache w
  /\ (invalidated w' = invalidated w
      \/ invalidated w'
         = invalidated w
           ++ match userId with
              | Some uid =>
                  if Js.truthy userId then [QUERY_KEYS.histories uid] else []
              | None => []
              end
           ++ [QUERY_KEYS.historiesTotal]).
Proof.
  intros hook w'. subst hook w'. rewrite perform_eq.
  destruct (attempt_calls _ _
              (fun w0 => invoke_world nc baseUrl (call_of userId token m) w0)
              (mutation_retry qc) w) as (k & _ & _ & Hi & Hca).
  destruct (attempt _ _ w) as [w1 [response|e]]; cbn [fst snd] in *.
  - destruct (success response).
    + split.
      * rewrite <- Hca. unfold UseHistoryMutations.invalidate.
        now destruct userId as [[|c uid]|].
      * right. now rewrite invalidated_invalidate, Hi.
    + split; [exact Hca|left; exact Hi].
  - split; [exact Hca|left; exact Hi].
Qed.

End MutationsAnyTransport.

Section MutationErrors.
Context {T C U : Type} `{!Stringify C} `{!Stringify U}.
Implicit Types (w : World T) (ms : UseHistoryMutations.Mutations)
  (m : Mutation C U) (userId token : option string) (qc : QueryClient)
  (nc : NetworkClient T).

Lemma perform_rejected qc nc baseUrl userId token m w ms e :
  (forall w0,
      dispatch nc
        (verb (request_of (StarterClient.new baseUrl nc) (call_of userId token m)))
        (calls w0)
        (url (request_of (StarterClient.new baseUrl nc) (call_of userId token m)))
        (options (request_of (StarterClient.new baseUrl nc)
                    (call_of userId token m)))
      = Rejected e) ->
  (perform (UseHistoryMutations.useHistoryMutations qc nc baseUrl userId token ms)
     m (w, ms)).1.2
  = settled_in m {| mutation_error := Some e; isPending := false |} ms.
Proof.
  intros Hnc. rewrite perform_eq.
  destruct (attempt_rejected
              (invoke (StarterClient.new baseUrl nc) (call_of userId token m)) e)
    with (n := mutation_retry qc) (w := w) as (Hs & _).
  { intros w0. rewrite invoke_eq, Hnc. now cbn. }
  destruct (attempt _ _ w) as [w1 s]. cbn [fst snd] in *. now subst s.
Qed.

(** X12: the hook's error is the error of the create mutation as long as it
    holds one, then that of the update mutation, then that of the delete
    mutation; it is not the error of the mutation that failed last.  When a
    create has failed with one message and an update with another, the
    hook shows the message of the create, in whichever order they ran. *)
Theorem mutation_error_precedence qc nc (baseUrl : string) userId token
    (create : C) (historyId : string) (update : U) w (a b : string) :
  (forall log u o, nc_post nc log u o = Rejected (Js.ErrorObject a)) ->
  (forall log u o, nc_put nc log u o = Rejected (Js.ErrorObject b)) ->
  let hook := UseHistoryMutations.useHistoryMutations qc nc baseUrl userId token in
  (let '(w1, ms1, _) :=
     UseHistoryMutations.createHistory (hook UseHistoryMutations.initial)
       create (w, UseHistoryMutations.initial) in
   let '(_, ms2, _) :=
     UseHistoryMutations.updateHistory (hook ms1) historyId update (w1, ms1) in
   UseHistoryMutations.error (hook ms1) = Some a
   /\ UseHistoryMutations.error (hook ms2) = Some a)
  /\ (let '(w1, ms1, _) :=
        UseHistoryMutations.updateHistory (hook UseHistoryMutations.initial)
          historyId update (w, UseHistoryMutations.initial) in
      let '(_, ms2, _) :=
        UseHistoryMutations.createHistory (hook ms1) create (w1, ms1) in
      UseHistoryMutations.error (hook ms1) = Some b
      /\ UseHistoryMutations.error (hook ms2) = Some a).
Proof.
  intros Hpost Hput hook. subst hook.
  assert (forall w0 ms,
             (perform (UseHistoryMutations.useHistoryMutations qc nc baseUrl
                         userId token ms) (Create (U := U) create)
                (w0, ms)).1.2
             = settled_in (U := U) (Create create)
                 {| mutation_error := Some (Js.ErrorObject a);
                    isPending := false |} ms) as Hcreate.
  { intros w0 ms. apply perform_rejected. intros w1. apply Hpost. }
  assert (forall w0 ms,
             (perform (UseHistoryMutations.useHistoryMutations qc nc baseUrl
                         userId token ms) (Update (C := C) historyId update)
                (w0, ms)).1.2
             = settled_in (C := C) (Update historyId update)
                 {| mutation_error := Some (Js.ErrorObject b);
                    isPending := false |} ms) as Hupdate.
  { intros w0 ms. apply perform_rejected. intros w1. apply Hput. }
  cbn [perform] in Hcreate, Hupdate. split.
  - pose proof (Hcreate w UseHistoryMutations.initial) as H1.
    destruct (UseHistoryMutations.createHistory _ create (w, _))
      as [[w1 ms1] s1]. cbn [fst snd] in H1. subst ms1.
    pose proof (Hupdate w1
                  (settled_in (U := U) (Create create)
                     {| mutation_error := Some (Js.ErrorObject a);
                        isPending := false |} UseHistoryMutations.initial))
      as H2.
    destruct (UseHistoryMutations.updateHistory _ historyId update (w1, _))
      as [[w2 ms2] s2]. cbn [fst snd] in H2. subst ms2.
    now split.
  - pose proof (Hupdate w UseHistoryMutations.initial) as H1.
    destruct (UseHistoryMutations.updateHistory _ historyId update (w, _))
      as [[w1 ms1] s1]. cbn [fst snd] in H1. subst ms1.
    pose proof (Hcreate w1
                  (settled_in (C := C) (Update historyId update)
                     {| mutation_error := Some (Js.ErrorObject b);
                        isPending := false |} UseHistoryMutations.initial))
      as H2.
    destruct (UseHistoryMutations.createHistory _ create (w1, _))
      as [[w2 ms2] s2]. cbn [fst snd] in H2. subst ms2.
    now split.
Qed.

End MutationErrors.

Lemma mutation_on_rejection_witness :
  let hook :=
    UseHistoryMutations.useHistoryMutations (T := History)
      (C := HistoryCreateRequest) (U := HistoryUpdateRequest) no_retry
      (createRejectingNetworkClient (Js.ErrorObject "Network Error"))
      "https://api.example.com" (Some "user-123") (Some "token") in
  let '(w', ms', settled) :=
    perform (hook UseHistoryMutations.initial) (Delete "hist-456")
      (fresh, UseHistoryMutations.initial) in
  settled = Rejected (Js.ErrorObject "Network Error")
  /\ UseHistoryMutations.error (hook ms') = Some "Network Error"
  /\ invalidated w' = []
  /\ cache w' = ∅
  /\ UseHistoryMutations.error
       (hook (UseHistoryMutations.clearError (hook ms') ms')) = None.
Proof.
  refine (mutation_on_rejection (T := History) (C := HistoryCreateRequest)
            (U := HistoryUpdateRequest) no_retry
            (createRejectingNetworkClient (Js.ErrorObject "Network Error"))
            "https://api.example.com" (Some "user-123") (Some "token")
            (Delete "hist-456") fresh (Js.ErrorObject "Network Error") _).
  intros [] ? ? ?; reflexivity.
Defined.

Lemma mutation_error_precedence_witness :
  let hook :=
    UseHistoryMutations.useHistoryMutations (T := History) no_retry
      (createFailingWrites sample_histories_one "Quota exceeded" "Not found")
      "https://api.example.com" (Some "user-123") (Some "token") in
  (let '(w1, ms1, _) :=
     UseHistoryMutations.createHistory (hook UseHistoryMutations.initial)
       sample_create (fresh, UseHistoryMutations.initial) in
   let '(_, ms2, _) :=
     UseHistoryMutations.updateHistory (hook ms1) "hist-456"
       {| update_datetime := None; update_value := Some 200 |} (w1, ms1) in
   UseHistoryMutations.error (hook ms1) = Some "Quota exceeded"
   /\ UseHistoryMutations.error (hook ms2) = Some "Quota exceeded")
  /\ (let '(w1, ms1, _) :=
        UseHistoryMutations.updateHistory (hook UseHistoryMutations.initial)
          "hist-456" {| update_datetime := None; update_value := Some 200 |}
          (fresh, UseHistoryMutations.initial) in
      let '(_, ms2, _) :=
        UseHistoryMutations.createHistory (hook ms1) sample_create (w1, ms1) in
      UseHistoryMutations.error (hook ms1) = Some "Not found"
      /\ UseHistoryMutations.error (hook ms2) = Some "Quota exceeded").
Proof.
  refine (mutation_error_precedence (T := History) no_retry
            (createFailingWrites sample_histories_one "Quota exceeded" "Not found")
            "https://api.example.com" (Some "user-123") (Some "token")
            sample_create "hist-456"
            {| update_datetime := None; update_value := Some 200 |}
            fresh "Quota exceeded" "Not found" _ _); reflexivity.
Defined.

Section MutationRequests.
Context {T C U : Type} `{!Stringify C} `{!Stringify U}.
Implicit Types (w : World T) (ms : UseHistoryMutations.Mutations)
  (m : Mutation C U) (qc : QueryClient) (nc : NetworkClient T).

Lemma invoke_resolves nc baseUrl (c : Call C U) envelope w :
  resolves_with nc envelope ->
  invoke (StarterClient.new baseUrl nc) c w
  = (logged (request_of (StarterClient.new baseUrl nc) c) w, Fulfilled envelope).
Proof. intros H. rewrite invoke_eq, H. reflexivity. Qed.

(** X16: when the transport resolves, a function of the hook calls it once,
    with the request of the client's method for the user and the token (the
    JSON text of the data as the body of a create or an update), and resolves
    with the transport's envelope as it is, whether [success] is set or not;
    the cache is not written. *)
Theorem mutation_resolves_once qc nc (baseUrl uid tok : string) m w ms envelope :
  resolves_with nc envelope ->
  let hook :=
    UseHistoryMutations.useHistoryMutations qc nc baseUrl (Some uid) (Some tok) in
  let '(w', _, settled) := perform (hook ms) m (w, ms) in
  settled = Fulfilled envelope
  /\ calls w'
     = calls w
       ++ [match m with
           | Create data =>
               {| verb := POST;
                  url := buildUrl baseUrl
                           ("/api/v1/users/" +:+ uid +:+ "/histories");
                  options := {| headers := createAuthHeaders tok;
                                body := Some (JSON_stringify data) |} |}
           | Update historyId data =>
               {| verb := PUT;
                  url := buildUrl baseUrl
                           ("/api/v1/users/" +:+ uid +:+ "/histories/"
                            +:+ historyId);
                  options := {| headers := createAuthHeaders tok;
                                body := Some (JSON_stringify data) |} |}
           | Delete historyId =>
               {| verb := DELETE;
                  url := buildUrl baseUrl
                           ("/api/v1/users/" +:+ uid +:+ "/histories/"
                            +:+ historyId);
                  options := {| headers := createAuthHeaders tok;
                                body := None |} |}
           end]
  /\ cache w' = cache w.
Proof.
  intros Hnc hook. subst hook. rewrite perform_eq.
  rewrite (attempt_fulfilled _ _ _ _ _
             (invoke_resolves nc baseUrl (call_of (Some uid) (Some tok) m)
                envelope w Hnc)).
  split; [reflexivity|].
  assert (forall w1 : World T,
             calls (if success envelope
                    then UseHistoryMutations.invalidate (Some uid) w1
                    else w1) = calls w1
             /\ cache (if success envelope
                       then UseHistoryMutations.invalidate (Some uid) w1
                       else w1) = cache w1) as Hframe.
  { intros w1. destruct (success envelope); [|now split].
    unfold UseHistoryMutations.invalidate. now destruct uid. }
  destruct (Hframe (logged (request_of (StarterClient.new baseUrl nc)
                              (call_of (Some uid) (Some tok) m)) w))
    as [-> ->].
  split; [|reflexivity]. now destruct m.
Qed.

End MutationRequests.

Lemma mutation_resolves_once_witness :
  let hook :=
    UseHistoryMutations.useHistoryMutations (U := HistoryUpdateRequest)
      no_retry (createMockNetworkClient sample_histories_one)
      "https://api.example.com" (Some "user-123") (Some "token-abc") in
  let '(w', _, settled) :=
    perform (hook UseHistoryMutations.initial) (Create sample_create)
      (fresh, UseHistoryMutations.initial) in
  settled = Fulfilled sample_histories_one
  /\ calls w'
     = [{| verb := POST;
           url := "https://api.example.com/api/v1/users/user-123/histories";
           options := {| headers := createAuthHeaders "token-abc";
                         body := Some (JSON_stringify sample_create) |} |}]
  /\ cache w' = ∅.
Proof.
  refine (mutation_resolves_once (U := HistoryUpdateRequest) no_retry
            (createMockNetworkClient sample_histories_one)
            "https://api.example.com" "user-123" "token-abc"
            (Create sample_create) fresh UseHistoryMutations.initial
            sample_histories_one _).
  intros [] ? ? ?; reflexivity.
Defined.
